(** * tasks/mds_strays.py: the stray-purge throttle test

    A shallow embedding of [TestStrays._test_throttling] and of the workload
    script it runs, with the properties of the polling loop, of the
    high-water heuristic and of the final sanity check.

    The source is Python 2 ([ctx.mounts.values()[0]], [size / MB] used as an
    integer): [/] on two integers is floor division, which is [Z.div] here.
    Python integers are unbounded, hence [Z]. *)

From Stdlib Require Import ZArith List String Bool Lia.
From Stdlib Require Import DecimalString.
From Stdlib Require Import Ascii DecimalPos DecimalZ.
Import ListNotations.
Open Scope Z_scope.

(** ** Data *)

(** The ['mds_cache'] section of [perf dump]: the six counters the test
    reads, by their keys. *)
Record mdc_stats : Type := {
  num_strays : Z;
  num_strays_purging : Z;
  num_strays_delayed : Z;
  num_purge_ops : Z;
  strays_created : Z;
  strays_purged : Z
}.

(** The texts of the six [RuntimeError]s, with the arguments of [format]. *)
Inductive message : Type :=
| Timeout_waiting (inodes : Z) (stats : mdc_stats)
    (* "Timeout waiting for {0} inodes to purge, stats:{1}" *)
| Saw_more_strays (stats : mdc_stats)
    (* "Saw more strays than expected, mdc stats: {0}" *)
| Purge_ops_violates (n bound : Z)
    (* "num_purge_ops violates threshold {0}/{1}" *)
| Strays_purging_violates (n bound : Z)
    (* "num_strays_purging violates threshold {0}/{1}" *)
| Ops_high_water_low (n bound : Z)
    (* "Ops in flight high water is unexpectedly low ({0} / {1})" *)
| Files_high_water_low (n bound : Z).
    (* "Files in flight high water is unexpectedly low ({0} / {1})" *)

Inductive exn : Type :=
| RuntimeError (msg : message)
| TypeError
    (* raise NotImplemented(throttle_type): NotImplemented is not callable,
       so the call itself raises TypeError and no throttle type is carried *)
| AssertionError (first second : Z).         (* assertEqual(first, second) failed *)

Inductive result (A : Type) : Type :=
| Ok (a : A)
| Raised (e : exn).
Arguments Ok {A} a.
Arguments Raised {A} e.

(** The failure classes of the design, by raise site. *)
Inductive failure : Type :=
| TimeoutError
| InvariantViolation
| HeuristicViolation
| OtherFailure.

Definition failure_of (e : exn) : failure :=
  match e with
  | RuntimeError (Timeout_waiting _ _) => TimeoutError
  | RuntimeError (Saw_more_strays _) => InvariantViolation
  | RuntimeError (Purge_ops_violates _ _) => InvariantViolation
  | RuntimeError (Strays_purging_violates _ _) => InvariantViolation
  | RuntimeError (Ops_high_water_low _ _) => HeuristicViolation
  | RuntimeError (Files_high_water_low _ _) => HeuristicViolation
  | TypeError => OtherFailure
  | AssertionError _ _ => InvariantViolation
  end.

(** ** The workload script *)

Definition MB : Z := 1024 * 1024.

(** What [create_script] does on the mount: paths are kept as their
    components below [mount_path]; a file's content is [size] times ['x'], of
    which only the length is kept. *)
Inductive fs_op : Type :=
| Mkdir (subdir : string)
| WriteFile (subdir filename : string) (size : Z).

(** [range(start, stop, step)] for a positive step, as a list. *)
Definition py_range (start stop step : Z) : list Z :=
  map (fun k => start + Z.of_nat k * step)
      (seq 0 (Z.to_nat ((stop - start + step - 1) / step))).

Definition str (n : Z) : string := NilZero.string_of_int (Z.to_int n).

(** ["{0}_{1}MB.bin".format(i, size / MB)] *)
Definition filename_of (i size : Z) : string :=
  (str i ++ "_" ++ str (size / MB) ++ "MB.bin")%string.

Definition subdir : string := "delete_me".

Definition create_script : list fs_op :=
  Mkdir subdir ::
  flat_map (fun i =>
    map (fun size => WriteFile subdir (filename_of i size) size)
        (py_range 0 (16 * MB) MB))
    (py_range 0 25 1).




(** ** The cluster under test *)

(** Commands sent to the mount and to the MDS, other than [perf dump]. *)
Inductive command : Type :=
| SetConf (subsys key value : string)
| RunPython (script : list fs_op)
| RunShell (argv : list string)
| MdsAsok (argv : list string).

(** The MDS as the test sees it.  [perf_dump k] is the ['mds_cache'] section
    the MDS answers to the [k]-th [perf dump] (counted from 0): the test has
    no other view of the purge queue, and only dumps that are answered are
    modelled.  [dumps] counts the dumps served,
    [slept] the seconds spent in [time.sleep], [issued] keeps the other
    commands, the latest first. *)
Record cluster : Type := {
  max_purge_ops : Z;
  max_purge_files : Z;
  perf_dump : nat -> mdc_stats;
  dumps : nat;
  slept : Z;
  issued : list command
}.

Definition issue (c : command) (w : cluster) : cluster :=
  {| max_purge_ops := max_purge_ops w; max_purge_files := max_purge_files w;
     perf_dump := perf_dump w; dumps := dumps w; slept := slept w;
     issued := c :: issued w |}.

(** Modelled from the spec: [set_conf] and [get_config] belong to
    [CephFSTestCase] and [Filesystem], which are not in this file.  The
    scenario step "relax the limit not under test to an effectively unbounded
    value" writes the limit, and the limits are read back from the live
    configuration. *)
Definition set_conf_max_purge_files (v : Z) (w : cluster) : cluster :=
  issue (SetConf "mds" "mds_max_purge_files" (str v))
    {| max_purge_ops := max_purge_ops w; max_purge_files := v;
       perf_dump := perf_dump w; dumps := dumps w; slept := slept w;
       issued := issued w |}.

Definition set_conf_max_purge_ops (v : Z) (w : cluster) : cluster :=
  issue (SetConf "mds" "mds_max_purge_ops" (str v))
    {| max_purge_ops := v; max_purge_files := max_purge_files w;
       perf_dump := perf_dump w; dumps := dumps w; slept := slept w;
       issued := issued w |}.

(** [self.fs.mds_asok(['perf', 'dump'])['mds_cache']] *)
Definition mds_asok_perf_dump (w : cluster) : mdc_stats * cluster :=
  (perf_dump w (dumps w),
   {| max_purge_ops := max_purge_ops w; max_purge_files := max_purge_files w;
      perf_dump := perf_dump w; dumps := S (dumps w); slept := slept w;
      issued := issued w |}).

(** [time.sleep(seconds)] *)
Definition sleep (seconds : Z) (w : cluster) : cluster :=
  {| max_purge_ops := max_purge_ops w; max_purge_files := max_purge_files w;
     perf_dump := perf_dump w; dumps := dumps w; slept := slept w + seconds;
     issued := issued w |}.

(** ** [TestStrays] *)

Definition OPS_THROTTLE : Z := 1.
Definition FILES_THROTTLE : Z := 2.

Definition total_inodes : Z := 401.
Definition purge_timeout : Z := 600.

(** The local variables of the polling loop. *)
Record locals : Type := {
  elapsed : Z;
  files_high_water : Z;
  ops_high_water : Z
}.

Definition initial_locals : locals :=
  {| elapsed := 0; files_high_water := 0; ops_high_water := 0 |}.

(** How one pass through the body of [while True] ends. *)
Inductive control : Type :=
| Next (l : locals)
| Break (l : locals)
| Raise (e : exn).

(** The [else] branch of the loop body, before the sleep: the threshold
    test by throttle type. *)
Definition check_threshold (throttle_type mds_max_purge_ops mds_max_purge_files : Z)
    (stats : mdc_stats) : option exn :=
  if throttle_type =? OPS_THROTTLE then
    if num_strays_purging stats >? mds_max_purge_files then
      Some (RuntimeError (Purge_ops_violates (num_purge_ops stats) mds_max_purge_ops))
    else None
  else if throttle_type =? FILES_THROTTLE then
    if num_strays_purging stats >? mds_max_purge_files then
      Some (RuntimeError
              (Strays_purging_violates (num_strays_purging stats) mds_max_purge_files))
    else None
  else Some TypeError.

(** One pass through the body of [while True]. *)
Definition loop_body (throttle_type mds_max_purge_ops mds_max_purge_files : Z)
    (l : locals) (w : cluster) : control * cluster :=
  let (stats, w) := mds_asok_perf_dump w in
  if elapsed l >=? purge_timeout then
    (Raise (RuntimeError (Timeout_waiting total_inodes stats)), w)
  else
    let l := {| elapsed := elapsed l;
                files_high_water := Z.max (files_high_water l) (num_strays_purging stats);
                ops_high_water := Z.max (ops_high_water l) (num_purge_ops stats) |} in
    if strays_purged stats =? total_inodes then (Break l, w)
    else if strays_purged stats >? total_inodes then
      (Raise (RuntimeError (Saw_more_strays stats)), w)
    else
      match check_threshold throttle_type mds_max_purge_ops mds_max_purge_files stats with
      | Some e => (Raise e, w)
      | None =>
          let w := sleep 1 w in
          (Next {| elapsed := elapsed l + 1;
                   files_high_water := files_high_water l;
                   ops_high_water := ops_high_water l |}, w)
      end.

(** [while True]: [fuel] bounds the number of passes; [None] when it runs
    out before the loop is left. *)
Fixpoint purge_loop (fuel : nat)
    (throttle_type mds_max_purge_ops mds_max_purge_files : Z)
    (l : locals) (w : cluster) : option (result locals * cluster) :=
  match fuel with
  | O => None
  | S fuel =>
      match loop_body throttle_type mds_max_purge_ops mds_max_purge_files l w with
      | (Next l, w) =>
          purge_loop fuel throttle_type mds_max_purge_ops mds_max_purge_files l w
      | (Break l, w) => Some (Ok l, w)
      | (Raise e, w) => Some (Raised e, w)
      end
  end.

(** "Check that we got up to a respectable rate during the purge." *)
Definition check_high_water (throttle_type mds_max_purge_ops mds_max_purge_files : Z)
    (l : locals) : option exn :=
  if throttle_type =? OPS_THROTTLE then
    if ops_high_water l <? mds_max_purge_ops / 2 then
      Some (RuntimeError (Ops_high_water_low (ops_high_water l) mds_max_purge_ops))
    else None
  else if throttle_type =? FILES_THROTTLE then
    if files_high_water l <? mds_max_purge_files / 2 then
      Some (RuntimeError (Files_high_water_low (ops_high_water l) mds_max_purge_ops))
    else None
  else None.

(** [self.assertEqual(first, second)] *)
Definition assertEqual (first second : Z) : option exn :=
  if first =? second then None else Some (AssertionError first second).

Definition first_failure (checks : list (option exn)) : option exn :=
  fold_right (fun c rest => match c with Some e => Some e | None => rest end)
             None checks.

(** "Sanity check all MDC stray stats", the asserts in their order. *)
Definition sanity_check (stats : mdc_stats) : option exn :=
  first_failure
    [ assertEqual (num_strays stats) 0;
      assertEqual (num_strays_purging stats) 0;
      assertEqual (num_strays_delayed stats) 0;
      assertEqual (num_purge_ops stats) 0;
      assertEqual (strays_created stats) total_inodes;
      assertEqual (strays_purged stats) total_inodes ].

(** The first statement of [_test_throttling]: "lift the threshold on
    whatever throttle we are *not* testing". *)
Definition lift_other_throttle (throttle_type : Z) (w : cluster) : result cluster :=
  if throttle_type =? OPS_THROTTLE then Ok (set_conf_max_purge_files 100000000 w)
  else if throttle_type =? FILES_THROTTLE then Ok (set_conf_max_purge_ops 100000000 w)
  else Raised TypeError.

(** Create the files, remove them, flush the journal. *)
Definition make_strays (w : cluster) : cluster :=
  let w := issue (RunPython create_script) w in
  let w := issue (RunShell ["rm"; "-rf"; "delete_me"]%string) w in
  issue (MdsAsok ["flush"; "journal"]%string) w.

(** [_test_throttling(throttle_type)]; [fuel] bounds the passes of its loop. *)
Definition _test_throttling (fuel : nat) (throttle_type : Z) (w : cluster)
    : option (result unit * cluster) :=
  match lift_other_throttle throttle_type w with
  | Raised e => Some (Raised e, w)
  | Ok w =>
      let w := make_strays w in
      let mds_max_purge_ops := max_purge_ops w in
      let mds_max_purge_files := max_purge_files w in
      match purge_loop fuel throttle_type mds_max_purge_ops mds_max_purge_files
                       initial_locals w with
      | None => None
      | Some (Raised e, w) => Some (Raised e, w)
      | Some (Ok l, w) =>
          match check_high_water throttle_type mds_max_purge_ops mds_max_purge_files l with
          | Some e => Some (Raised e, w)
          | None =>
              let (stats, w) := mds_asok_perf_dump w in
              match sanity_check stats with
              | Some e => Some (Raised e, w)
              | None => Some (Ok tt, w)
              end
          end
      end
  end.

Definition test_ops_throttle (fuel : nat) (w : cluster) :=
  _test_throttling fuel OPS_THROTTLE w.

Definition test_files_throttle (fuel : nat) (w : cluster) :=
  _test_throttling fuel FILES_THROTTLE w.

(** The passes the loop needs at most: one per second of [purge_timeout] and
    the one that times out. *)
Definition enough_fuel : nat := S (Z.to_nat purge_timeout).

(** The polling loop as the test runs it, from [elapsed = 0] and both
    high-water marks at 0. *)
Definition monitor (throttle_type mds_max_purge_ops mds_max_purge_files : Z)
    (w : cluster) : option (result locals * cluster) :=
  purge_loop enough_fuel throttle_type mds_max_purge_ops mds_max_purge_files
             initial_locals w.

(** The locals and the cluster after [n] passes that all went on to the next
    one; [None] when the loop is left earlier. *)
Fixpoint after (n : nat) (throttle_type mds_max_purge_ops mds_max_purge_files : Z)
    (l : locals) (w : cluster) : option (locals * cluster) :=
  match n with
  | O => Some (l, w)
  | S n =>
      match loop_body throttle_type mds_max_purge_ops mds_max_purge_files l w with
      | (Next l, w) => after n throttle_type mds_max_purge_ops mds_max_purge_files l w
      | _ => None
      end
  end.

(** The snapshot the [k]-th pass of a loop started on [w] receives. *)
Definition sample (w : cluster) (k : nat) : mdc_stats :=
  perf_dump w (dumps w + k)%nat.

(** Pass [n] (from 0) of the loop started on [w] is entered, so that its
    snapshot, [sample w n], is taken. *)
Definition sampled (throttle_type mds_max_purge_ops mds_max_purge_files : Z)
    (w : cluster) (n : nat) : Prop :=
  after n throttle_type mds_max_purge_ops mds_max_purge_files initial_locals w <> None.

(** The first [n] snapshots of a loop started on [w]. *)
Definition samples (w : cluster) (n : nat) : list mdc_stats :=
  map (sample w) (seq 0 n).

(** The running maximum, from [start]. *)
Definition maximum (start : Z) (xs : list Z) : Z := fold_left Z.max xs start.

(** The final snapshot the sanity check accepts. *)
Definition all_purged : mdc_stats :=
  {| num_strays := 0; num_strays_purging := 0; num_strays_delayed := 0;
     num_purge_ops := 0; strays_created := total_inodes;
     strays_purged := total_inodes |}.

(** The locals once the maxima have taken the snapshot in. *)
Definition observe (l : locals) (stats : mdc_stats) : locals :=
  {| elapsed := elapsed l;
     files_high_water := Z.max (files_high_water l) (num_strays_purging stats);
     ops_high_water := Z.max (ops_high_water l) (num_purge_ops stats) |}.

Definition tick (l : locals) : locals :=
  {| elapsed := elapsed l + 1;
     files_high_water := files_high_water l;
     ops_high_water := ops_high_water l |}.

(** The cluster [n] passes later: [n] more dumps served, [n] more seconds
    slept. *)
Definition advance (n : nat) (w : cluster) : cluster :=
  {| max_purge_ops := max_purge_ops w; max_purge_files := max_purge_files w;
     perf_dump := perf_dump w; dumps := (dumps w + n)%nat;
     slept := slept w + Z.of_nat n; issued := issued w |}.

(** The locals [n] passes later: [n] more seconds counted, and the maxima
    over the snapshots of these passes. *)
Definition locals_after (n : nat) (l : locals) (w : cluster) : locals :=
  {| elapsed := elapsed l + Z.of_nat n;
     files_high_water :=
       maximum (files_high_water l) (map num_strays_purging (samples w n));
     ops_high_water :=
       maximum (ops_high_water l) (map num_purge_ops (samples w n)) |}.

(** The snapshot lets the loop go on: below [total_inodes] and within the
    threshold. *)
Definition goes_on (throttle_type mds_max_purge_ops mds_max_purge_files : Z)
    (stats : mdc_stats) : Prop :=
  strays_purged stats < total_inodes /\
  check_threshold throttle_type mds_max_purge_ops mds_max_purge_files stats = None.

(** ** Clusters to run the test on *)

(** A purge under way, within both limits of [quiet_cluster]. *)
Definition waiting : mdc_stats :=
  {| num_strays := 300; num_strays_purging := 8; num_strays_delayed := 292;
     num_purge_ops := 12; strays_created := 401; strays_purged := 101 |}.

(** The last stray purged while eleven are still counted as purging. *)
Definition burst : mdc_stats :=
  {| num_strays := 11; num_strays_purging := 11; num_strays_delayed := 0;
     num_purge_ops := 11; strays_created := 401; strays_purged := 401 |}.

(** One stray too many. *)
Definition overshot : mdc_stats :=
  {| num_strays := 0; num_strays_purging := 0; num_strays_delayed := 0;
     num_purge_ops := 0; strays_created := 402; strays_purged := 402 |}.

(** More files in flight than the lifted files limit, three operations. *)
Definition flooded : mdc_stats :=
  {| num_strays := 400; num_strays_purging := 100000001; num_strays_delayed := 0;
     num_purge_ops := 3; strays_created := 401; strays_purged := 0 |}.

(** A purge that keeps three files in flight. *)
Definition trickle : mdc_stats :=
  {| num_strays := 300; num_strays_purging := 3; num_strays_delayed := 297;
     num_purge_ops := 3; strays_created := 401; strays_purged := 101 |}.

(** Everything purged, one stray still counted. *)
Definition leftover : mdc_stats :=
  {| num_strays := 1; num_strays_purging := 0; num_strays_delayed := 0;
     num_purge_ops := 0; strays_created := 401; strays_purged := 401 |}.

(** A purge under way with eleven files in flight. *)
Definition crowded : mdc_stats :=
  {| num_strays := 300; num_strays_purging := 11; num_strays_delayed := 289;
     num_purge_ops := 12; strays_created := 401; strays_purged := 101 |}.

(** A purge under way with nothing in flight at the moment. *)
Definition calm : mdc_stats :=
  {| num_strays := 300; num_strays_purging := 0; num_strays_delayed := 300;
     num_purge_ops := 0; strays_created := 401; strays_purged := 101 |}.

(** [first] for the dumps before the [k]-th, [rest] from then on. *)
Definition switch_at (k : nat) (first rest : mdc_stats) (i : nat) : mdc_stats :=
  if (i <? k)%nat then first else rest.

(** An MDS with limits of 16 operations and 10 files that has served no dump
    yet. *)
Definition quiet_cluster (dump : nat -> mdc_stats) : cluster :=
  {| max_purge_ops := 16; max_purge_files := 10; perf_dump := dump;
     dumps := 0; slept := 0; issued := [] |}.

Definition drains_in (k : nat) : cluster := quiet_cluster (switch_at k waiting all_purged).
Definition stuck : cluster := quiet_cluster (fun _ => waiting).
Definition drains_late : cluster := drains_in (Z.to_nat purge_timeout).
Definition bursts_at (k : nat) : cluster :=
  quiet_cluster (fun i => if (i =? k)%nat then burst else switch_at k waiting all_purged i).
Definition overshoots_at (k : nat) : cluster := quiet_cluster (switch_at k waiting overshot).
Definition floods : cluster := quiet_cluster (fun _ => flooded).

Definition crowds_at (k : nat) : cluster := quiet_cluster (switch_at k waiting crowded).
Definition one_file_limit : cluster :=
  {| max_purge_ops := 16; max_purge_files := 1;
     perf_dump := switch_at 2 calm leftover; dumps := 0; slept := 0; issued := [] |}.
Definition trickles : cluster := quiet_cluster (switch_at 2 trickle all_purged).
Definition keeps_one : cluster := quiet_cluster (switch_at 2 waiting leftover).

(** The character [c] occurs in [s]. *)
Fixpoint occurs (c : ascii) (s : string) : Prop :=
  match s with
  | EmptyString => False
  | String a s => a = c \/ occurs c s
  end.

(** What is left of an outcome when the text of an error is dropped: the
    locals of a completed loop, or the class of the failure. *)
Definition outcome_class (r : result locals) : locals + failure :=
  match r with
  | Ok l => inl l
  | Raised e => inr (failure_of e)
  end.

(** ** One pass of the loop *)

Section Loop.

Variables throttle_type mds_max_purge_ops mds_max_purge_files : Z.

Local Abbreviation body := (loop_body throttle_type mds_max_purge_ops mds_max_purge_files).
Local Abbreviation threshold :=
  (check_threshold throttle_type mds_max_purge_ops mds_max_purge_files).

Lemma body_timeout l w :
  purge_timeout <= elapsed l ->
  body l w =
    (Raise (RuntimeError (Timeout_waiting total_inodes (perf_dump w (dumps w)))),
     snd (mds_asok_perf_dump w)).
Proof.
  intros H. unfold loop_body. cbn [mds_asok_perf_dump fst snd].
  destruct (Z.geb_spec (elapsed l) purge_timeout); [reflexivity | lia].
Qed.

Lemma body_break l w :
  elapsed l < purge_timeout ->
  strays_purged (perf_dump w (dumps w)) = total_inodes ->
  body l w = (Break (observe l (perf_dump w (dumps w))), snd (mds_asok_perf_dump w)).
Proof.
  intros H E. unfold loop_body. cbn [mds_asok_perf_dump fst snd].
  destruct (Z.geb_spec (elapsed l) purge_timeout); [lia |].
  rewrite E, Z.eqb_refl. reflexivity.
Qed.

Lemma body_overshoot l w :
  elapsed l < purge_timeout ->
  total_inodes < strays_purged (perf_dump w (dumps w)) ->
  body l w =
    (Raise (RuntimeError (Saw_more_strays (perf_dump w (dumps w)))),
     snd (mds_asok_perf_dump w)).
Proof.
  intros H E. unfold loop_body. cbn [mds_asok_perf_dump fst snd].
  destruct (Z.geb_spec (elapsed l) purge_timeout); [lia |].
  destruct (Z.eqb_spec (strays_purged (perf_dump w (dumps w))) total_inodes); [lia |].
  destruct (Z.gtb_spec (strays_purged (perf_dump w (dumps w))) total_inodes); [| lia].
  reflexivity.
Qed.

Lemma body_below l w :
  elapsed l < purge_timeout ->
  strays_purged (perf_dump w (dumps w)) < total_inodes ->
  body l w =
    match threshold (perf_dump w (dumps w)) with
    | Some e => (Raise e, snd (mds_asok_perf_dump w))
    | None => (Next (tick (observe l (perf_dump w (dumps w)))),
               sleep 1 (snd (mds_asok_perf_dump w)))
    end.
Proof.
  intros H E. unfold loop_body. cbn [mds_asok_perf_dump fst snd].
  destruct (Z.geb_spec (elapsed l) purge_timeout); [lia |].
  destruct (Z.eqb_spec (strays_purged (perf_dump w (dumps w))) total_inodes); [lia |].
  destruct (Z.gtb_spec (strays_purged (perf_dump w (dumps w))) total_inodes); [lia |].
  reflexivity.
Qed.

(** A pass goes on to the next one only below the timeout, on a snapshot
    below [total_inodes] that passes the threshold test; it then sleeps one
    second and counts it. *)
Lemma body_next_inv l w l' w' :
  body l w = (Next l', w') ->
  elapsed l < purge_timeout /\
  strays_purged (perf_dump w (dumps w)) < total_inodes /\
  threshold (perf_dump w (dumps w)) = None /\
  l' = tick (observe l (perf_dump w (dumps w))) /\
  w' = sleep 1 (snd (mds_asok_perf_dump w)).
Proof.
  intros H.
  destruct (Z.le_gt_cases purge_timeout (elapsed l)) as [T | T].
  { rewrite body_timeout in H by assumption. discriminate. }
  destruct (Z.lt_total (strays_purged (perf_dump w (dumps w))) total_inodes)
    as [B | [B | B]].
  - rewrite body_below in H by assumption.
    destruct (threshold (perf_dump w (dumps w))); inversion H; auto.
  - rewrite body_break in H by assumption. discriminate.
  - rewrite body_overshoot in H by assumption. discriminate.
Qed.

Lemma body_break_inv l w l' w' :
  body l w = (Break l', w') ->
  elapsed l < purge_timeout /\
  strays_purged (perf_dump w (dumps w)) = total_inodes /\
  l' = observe l (perf_dump w (dumps w)) /\
  w' = snd (mds_asok_perf_dump w).
Proof.
  intros H.
  destruct (Z.le_gt_cases purge_timeout (elapsed l)) as [T | T].
  { rewrite body_timeout in H by assumption. discriminate. }
  destruct (Z.lt_total (strays_purged (perf_dump w (dumps w))) total_inodes)
    as [B | [B | B]].
  - rewrite body_below in H by assumption.
    destruct (threshold (perf_dump w (dumps w))); discriminate.
  - rewrite body_break in H by assumption. inversion H; auto.
  - rewrite body_overshoot in H by assumption. discriminate.
Qed.

(** The threshold test compares [num_strays_purging] with the files limit
    for both throttle types. *)
Lemma threshold_none stats :
  throttle_type = OPS_THROTTLE \/ throttle_type = FILES_THROTTLE ->
  (threshold stats = None <-> num_strays_purging stats <= mds_max_purge_files).
Proof.
  intros [-> | ->]; unfold check_threshold; cbn [Z.eqb OPS_THROTTLE FILES_THROTTLE Pos.eqb];
    destruct (Z.gtb_spec (num_strays_purging stats) mds_max_purge_files);
    split; intros; try discriminate; try lia; reflexivity.
Qed.

Lemma threshold_some stats e :
  threshold stats = Some e ->
  (throttle_type = OPS_THROTTLE \/ throttle_type = FILES_THROTTLE) ->
  mds_max_purge_files < num_strays_purging stats /\
  failure_of e = InvariantViolation.
Proof.
  intros H [-> | ->]; revert H; unfold check_threshold;
    cbn [Z.eqb OPS_THROTTLE FILES_THROTTLE Pos.eqb];
    destruct (Z.gtb_spec (num_strays_purging stats) mds_max_purge_files);
    intros E; inversion E; subst; split; try lia; reflexivity.
Qed.

End Loop.

(** ** Several passes *)

Lemma advance_0 w : advance 0 w = w.
Proof.
  destruct w; unfold advance; cbn. f_equal; lia.
Qed.

Lemma advance_one w : sleep 1 (snd (mds_asok_perf_dump w)) = advance 1 w.
Proof.
  destruct w; unfold advance, sleep; cbn. f_equal; lia.
Qed.

Lemma advance_S n w : advance n (advance 1 w) = advance (S n) w.
Proof.
  destruct w; unfold advance; cbn [max_purge_ops max_purge_files perf_dump dumps slept issued].
  f_equal; lia.
Qed.

Lemma sample_advance n w k : sample (advance n w) k = sample w (n + k).
Proof.
  unfold sample, advance; cbn. f_equal; lia.
Qed.

Lemma sample_0 w : sample w 0 = perf_dump w (dumps w).
Proof.
  unfold sample. f_equal; lia.
Qed.

Lemma samples_S n w : samples w (S n) = sample w 0 :: samples (advance 1 w) n.
Proof.
  unfold samples. cbn [seq map]. f_equal.
  rewrite <- seq_shift, map_map.
  apply map_ext. intros k. rewrite sample_advance. reflexivity.
Qed.

Lemma samples_snoc w n : samples w (S n) = samples w n ++ [sample w n].
Proof.
  unfold samples. rewrite seq_S, map_app. reflexivity.
Qed.

Lemma locals_after_0 l w : locals_after 0 l w = l.
Proof.
  destruct l; unfold locals_after, maximum; cbn. f_equal; lia.
Qed.

Lemma locals_after_S n l w :
  locals_after n (tick (observe l (sample w 0))) (advance 1 w) = locals_after (S n) l w.
Proof.
  unfold locals_after. rewrite samples_S. cbn [map maximum fold_left tick observe
    elapsed files_high_water ops_high_water].
  f_equal. lia.
Qed.

(** [maximum] is a maximum: an upper bound that is the start or an element. *)
Lemma maximum_ge_start xs : forall start, start <= maximum start xs.
Proof.
  unfold maximum. induction xs as [| x xs IH]; intros start; cbn [fold_left].
  - lia.
  - specialize (IH (Z.max start x)). lia.
Qed.

Lemma maximum_ge xs : forall start x, In x xs -> x <= maximum start xs.
Proof.
  unfold maximum. induction xs as [| y xs IH]; intros start x H; cbn [fold_left].
  - destruct H.
  - destruct H as [-> | H].
    + pose proof (maximum_ge_start xs (Z.max start x)) as G. unfold maximum in G. lia.
    + apply IH, H.
Qed.

Lemma maximum_attained xs : forall start,
  maximum start xs = start \/ In (maximum start xs) xs.
Proof.
  unfold maximum. induction xs as [| y xs IH]; intros start; cbn [fold_left].
  - left; reflexivity.
  - destruct (IH (Z.max start y)) as [E | E].
    + rewrite E. destruct (Z.max_spec start y) as [[_ ->] | [_ ->]];
        [right; left; reflexivity | left; reflexivity].
    + right; right; exact E.
Qed.

Lemma maximum_snoc xs start x : maximum start (xs ++ [x]) = Z.max (maximum start xs) x.
Proof.
  unfold maximum. rewrite fold_left_app. reflexivity.
Qed.

Section Passes.

Variables throttle_type mds_max_purge_ops mds_max_purge_files : Z.

Local Abbreviation body := (loop_body throttle_type mds_max_purge_ops mds_max_purge_files).
Local Abbreviation loop := (fun fuel =>
  purge_loop fuel throttle_type mds_max_purge_ops mds_max_purge_files).
Local Abbreviation threshold :=
  (check_threshold throttle_type mds_max_purge_ops mds_max_purge_files).
Local Abbreviation passes := (fun n =>
  after n throttle_type mds_max_purge_ops mds_max_purge_files).

Local Abbreviation go := (goes_on throttle_type mds_max_purge_ops mds_max_purge_files).

(** [n] passes that all go on leave the locals and the cluster as computed
    by [locals_after] and [advance]; every one of them was entered before
    the timeout, on a snapshot that lets the loop go on. *)
Lemma after_inv n : forall l w l' w',
  passes n l w = Some (l', w') ->
  l' = locals_after n l w /\ w' = advance n w /\
  ((0 < n)%nat -> elapsed l + Z.of_nat n <= purge_timeout) /\
  (forall i, (i < n)%nat -> go (sample w i)).
Proof.
  induction n as [| n IH]; intros l w l' w' H.
  - cbn in H. inversion H; subst.
    rewrite locals_after_0, advance_0.
    repeat split; intros; lia.
  - cbn [after] in H.
    destruct (body l w) as [[l1 | l1 | e] w1] eqn:B; try discriminate.
    apply body_next_inv in B as (T & P & C & -> & ->).
    rewrite advance_one, <- sample_0 in *.
    apply IH in H as (-> & -> & E & G).
    rewrite locals_after_S, advance_S.
    repeat split.
    + intros _. destruct n as [| n].
      * lia.
      * cbn [tick observe elapsed] in E. lia.
    + destruct i as [| i]; [assumption |].
      assert (i < n)%nat as L by lia.
      specialize (G i L). rewrite sample_advance in G. exact (proj1 G).
    + destruct i as [| i]; [assumption |].
      assert (i < n)%nat as L by lia.
      specialize (G i L). rewrite sample_advance in G. exact (proj2 G).
Qed.

(** Conversely, snapshots that let the loop go on carry it forward as long
    as the timeout is not reached. *)
Lemma after_go n : forall l w,
  elapsed l + Z.of_nat n <= purge_timeout ->
  (forall i, (i < n)%nat -> go (sample w i)) ->
  passes n l w = Some (locals_after n l w, advance n w).
Proof.
  induction n as [| n IH]; intros l w T G.
  - cbn [after]. rewrite locals_after_0, advance_0. reflexivity.
  - cbn [after].
    destruct (G 0%nat ltac:(lia)) as [P C]. rewrite sample_0 in P, C.
    rewrite body_below, C by lia.
    rewrite advance_one, <- sample_0.
    rewrite IH.
    + rewrite locals_after_S, advance_S. reflexivity.
    + cbn [tick observe elapsed]. lia.
    + intros i L. rewrite sample_advance. apply G. lia.
Qed.

Lemma after_add (n m : nat) : forall l w,
  passes (n + m)%nat l w =
    match passes n l w with
    | Some (l', w') => passes m l' w'
    | None => None
    end.
Proof.
  induction n as [| n IH]; intros l w; cbn [after Nat.add].
  - reflexivity.
  - destruct (body l w) as [[l1 | l1 | e] w1]; auto.
Qed.

(** The loop after [n] passes that go on is the loop from there. *)
Lemma loop_after n : forall fuel l w l' w',
  passes n l w = Some (l', w') ->
  loop (n + fuel)%nat l w = loop fuel l' w'.
Proof.
  induction n as [| n IH]; intros fuel l w l' w' H; cbn [after] in H.
  - inversion H; reflexivity.
  - cbn [Nat.add purge_loop].
    destruct (body l w) as [[l1 | l1 | e] w1]; try discriminate.
    apply IH, H.
Qed.

(** A loop that is left was left in some pass [n], after [n] passes that
    went on. *)
Lemma loop_left fuel : forall l w r w',
  loop fuel l w = Some (r, w') ->
  exists n l1 w1,
    (n < fuel)%nat /\ passes n l w = Some (l1, w1) /\
    ((exists l2, body l1 w1 = (Break l2, w') /\ r = Ok l2) \/
     (exists e, body l1 w1 = (Raise e, w') /\ r = Raised e)).
Proof.
  induction fuel as [| fuel IH]; intros l w r w' H; cbn [purge_loop] in H.
  - discriminate.
  - destruct (body l w) as [[l1 | l1 | e] w1] eqn:B.
    + apply IH in H as (n & l2 & w2 & L & P & D).
      exists (S n), l2, w2. split; [lia |]. split; [| exact D].
      cbn [after]. rewrite B. exact P.
    + inversion H; subst. exists 0%nat, l, w.
      split; [lia |]. split; [reflexivity |]. left. eauto.
    + inversion H; subst. exists 0%nat, l, w.
      split; [lia |]. split; [reflexivity |]. right. eauto.
Qed.

(** More fuel does not change the outcome of a loop that is left. *)
Lemma loop_more_fuel fuel : forall extra l w r,
  loop fuel l w = Some r -> loop (fuel + extra)%nat l w = Some r.
Proof.
  induction fuel as [| fuel IH]; intros extra l w r H; cbn [purge_loop] in H.
  - discriminate.
  - cbn [Nat.add purge_loop].
    destruct (body l w) as [[l1 | l1 | e] w1]; auto.
Qed.

(** The loop is left within the passes that remain before the timeout, and
    one more. *)
Lemma loop_total n : forall l w,
  (Z.to_nat (purge_timeout - elapsed l) <= n)%nat ->
  exists r, loop (S n) l w = Some r.
Proof.
  induction n as [| n IH]; intros l w H.
  - cbn [purge_loop]. rewrite body_timeout by lia. eauto.
  - cbn [purge_loop].
    destruct (body l w) as [[l1 | l1 | e] w1] eqn:B; eauto.
    apply body_next_inv in B as (T & _ & _ & -> & _).
    apply IH. cbn [tick observe elapsed]. lia.
Qed.

End Passes.

(** ** The loop as the test runs it *)

Section Monitor.

Variables throttle_type mds_max_purge_ops mds_max_purge_files : Z.
Variable w : cluster.

Local Abbreviation body := (loop_body throttle_type mds_max_purge_ops mds_max_purge_files).
Local Abbreviation threshold :=
  (check_threshold throttle_type mds_max_purge_ops mds_max_purge_files).
Local Abbreviation passes := (fun n =>
  after n throttle_type mds_max_purge_ops mds_max_purge_files).
Local Abbreviation run := (monitor throttle_type mds_max_purge_ops mds_max_purge_files w).
Local Abbreviation taken := (sampled throttle_type mds_max_purge_ops mds_max_purge_files w).
Local Abbreviation go := (goes_on throttle_type mds_max_purge_ops mds_max_purge_files).

Lemma monitor_total : exists r, run = Some r.
Proof.
  unfold monitor, enough_fuel. apply loop_total.
  cbn [initial_locals elapsed]. rewrite Z.sub_0_r. apply Nat.le_refl.
Qed.

(** Pass [n] is entered exactly when the [n] snapshots before it let the
    loop go on and [n] seconds are within the timeout. *)
Lemma sampled_iff n :
  taken n <->
  Z.of_nat n <= purge_timeout /\ forall i, (i < n)%nat -> go (sample w i).
Proof.
  unfold sampled. split.
  - intros H.
    destruct (passes n initial_locals w) as [[l1 w1] |] eqn:P; [| contradiction].
    apply after_inv in P as (_ & _ & T & G). split; [| exact G].
    destruct n as [| n]; [unfold purge_timeout; lia |].
    specialize (T ltac:(lia)). cbn [initial_locals elapsed] in T. lia.
  - intros [T G]. rewrite after_go; [discriminate | | exact G].
    cbn [initial_locals elapsed]. lia.
Qed.

Lemma sampled_state n :
  taken n ->
  passes n initial_locals w = Some (locals_after n initial_locals w, advance n w).
Proof.
  intros H. apply sampled_iff in H as [T G].
  apply after_go; [cbn [initial_locals elapsed]; lia | exact G].
Qed.

(** The pass in which the monitor is left decides its outcome. *)
Lemma monitor_at n :
  taken n ->
  run =
    match body (locals_after n initial_locals w) (advance n w) with
    | (Next _, _) => run
    | (Break l, w') => Some (Ok l, w')
    | (Raise e, w') => Some (Raised e, w')
    end.
Proof.
  intros H.
  destruct (body (locals_after n initial_locals w) (advance n w))
    as [[l1 | l1 | e] w1] eqn:B; [reflexivity | |].
  all: pose proof (proj1 (sampled_iff n) H) as [T _];
    pose proof (sampled_state n H) as P;
    unfold monitor, enough_fuel;
    replace (S (Z.to_nat purge_timeout)) with (n + S (Z.to_nat purge_timeout - n))%nat by lia;
    rewrite (loop_after _ _ _ _ _ _ _ _ _ P); cbn [purge_loop]; rewrite B; reflexivity.
Qed.

Lemma sample_at n : perf_dump (advance n w) (dumps (advance n w)) = sample w n.
Proof. reflexivity. Qed.

Lemma elapsed_at n : elapsed (locals_after n initial_locals w) = Z.of_nat n.
Proof. reflexivity. Qed.

(** A monitor that is left was left in a pass that was entered. *)
Lemma monitor_left r w' :
  run = Some (r, w') ->
  exists n,
    taken n /\
    ((exists l, body (locals_after n initial_locals w) (advance n w) = (Break l, w')
                /\ r = Ok l) \/
     (exists e, body (locals_after n initial_locals w) (advance n w) = (Raise e, w')
                /\ r = Raised e)).
Proof.
  intros H. unfold monitor in H.
  apply loop_left in H as (n & l1 & w1 & _ & P & D).
  assert (taken n) as S by (unfold sampled; rewrite P; discriminate).
  rewrite (sampled_state n S) in P. inversion P; subst.
  exists n. split; assumption.
Qed.

(** The four ways a pass that is entered leaves the monitor. *)
Lemma monitor_timeout n :
  taken n -> purge_timeout <= Z.of_nat n ->
  run = Some (Raised (RuntimeError (Timeout_waiting total_inodes (sample w n))),
              snd (mds_asok_perf_dump (advance n w))).
Proof.
  intros S T. rewrite (monitor_at n S), body_timeout, sample_at.
  - reflexivity.
  - rewrite elapsed_at. exact T.
Qed.

Lemma monitor_break n :
  taken n -> Z.of_nat n < purge_timeout ->
  strays_purged (sample w n) = total_inodes ->
  run = Some (Ok (observe (locals_after n initial_locals w) (sample w n)),
              snd (mds_asok_perf_dump (advance n w))).
Proof.
  intros S T E. rewrite (monitor_at n S), body_break, sample_at.
  - reflexivity.
  - rewrite elapsed_at. exact T.
  - rewrite sample_at. exact E.
Qed.

Lemma monitor_overshoot n :
  taken n -> Z.of_nat n < purge_timeout ->
  total_inodes < strays_purged (sample w n) ->
  run = Some (Raised (RuntimeError (Saw_more_strays (sample w n))),
              snd (mds_asok_perf_dump (advance n w))).
Proof.
  intros S T E. rewrite (monitor_at n S), body_overshoot, sample_at.
  - reflexivity.
  - rewrite elapsed_at. exact T.
  - rewrite sample_at. exact E.
Qed.

Lemma monitor_violation n e :
  taken n -> Z.of_nat n < purge_timeout ->
  strays_purged (sample w n) < total_inodes ->
  threshold (sample w n) = Some e ->
  run = Some (Raised e, snd (mds_asok_perf_dump (advance n w))).
Proof.
  intros S T E C. rewrite (monitor_at n S), body_below, sample_at, C.
  - reflexivity.
  - rewrite elapsed_at. exact T.
  - rewrite sample_at. exact E.
Qed.

(** A monitor that completes did so in a pass [n] before the timeout, on a
    snapshot with [strays_purged = total_inodes], after [n] snapshots that
    let the loop go on. *)
Lemma monitor_completed l w' :
  run = Some (Ok l, w') ->
  exists n,
    taken n /\ Z.of_nat n < purge_timeout /\
    strays_purged (sample w n) = total_inodes /\
    l = observe (locals_after n initial_locals w) (sample w n) /\
    w' = snd (mds_asok_perf_dump (advance n w)).
Proof.
  intros H. apply monitor_left in H as (n & S & [(l1 & B & E) | (e & _ & E)]);
    [| discriminate].
  inversion E; subst l1.
  apply body_break_inv in B as (T & P & -> & ->).
  rewrite sample_at in *. rewrite elapsed_at in T.
  exists n. auto.
Qed.

(** The high-water marks on leaving pass [n] with [Break]: the maxima over
    the [n + 1] snapshots taken. *)
Lemma observe_maxima n :
  observe (locals_after n initial_locals w) (sample w n) =
  {| elapsed := Z.of_nat n;
     files_high_water := maximum 0 (map num_strays_purging (samples w (S n)));
     ops_high_water := maximum 0 (map num_purge_ops (samples w (S n))) |}.
Proof.
  unfold observe, locals_after. cbn [elapsed files_high_water ops_high_water initial_locals].
  rewrite samples_snoc, !map_app. cbn [map]. rewrite !maximum_snoc. reflexivity.
Qed.

End Monitor.

(** ** The properties of the test *)

(** C10.  Whatever the MDS answers, the loop is left within
    [purge_timeout + 1] passes.  A pass ends in [Break], raises, or goes on
    after one second of sleep with [elapsed] increased by exactly 1, which
    happens only below the timeout; a pass entered with
    [elapsed >= purge_timeout] raises the timeout error.  Every pass takes
    one snapshot, and passes allowed beyond [purge_timeout + 1] are never
    made. *)
Theorem loop_terminates (throttle_type mds_max_purge_ops mds_max_purge_files : Z)
    (w : cluster) :
  (exists r w',
     purge_loop (S (Z.to_nat purge_timeout)) throttle_type mds_max_purge_ops
                mds_max_purge_files initial_locals w = Some (r, w') /\
     (dumps w' <= dumps w + S (Z.to_nat purge_timeout))%nat /\
     forall more,
       purge_loop (S (Z.to_nat purge_timeout) + more) throttle_type mds_max_purge_ops
                  mds_max_purge_files initial_locals w = Some (r, w')) /\
  (forall l w0,
     match loop_body throttle_type mds_max_purge_ops mds_max_purge_files l w0 with
     | (Next l', w') =>
         elapsed l < purge_timeout /\ elapsed l' = elapsed l + 1 /\
         slept w' = slept w0 + 1 /\ dumps w' = S (dumps w0)
     | (Break _, w') => dumps w' = S (dumps w0)
     | (Raise _, w') => dumps w' = S (dumps w0)
     end) /\
  (forall l w0,
     purge_timeout <= elapsed l ->
     exists e w',
       loop_body throttle_type mds_max_purge_ops mds_max_purge_files l w0 = (Raise e, w') /\
       failure_of e = TimeoutError).
Proof.
  split; [| split].
  - destruct (monitor_total throttle_type mds_max_purge_ops mds_max_purge_files w)
      as [[r w'] H].
    exists r, w'. split; [exact H |].
    split; [| intros more; apply loop_more_fuel, H].
    apply monitor_left in H as (n & S & D).
    apply sampled_iff in S as [T _].
    assert (dumps w' = S (dumps (advance n w))) as E.
    { destruct D as [(l & B & _) | (e & B & _)].
      - apply body_break_inv in B as (_ & _ & _ & ->). reflexivity.
      - unfold loop_body in B. cbn [mds_asok_perf_dump] in B.
        repeat match type of B with
               | context [if ?c then _ else _] => destruct c
               | context [match ?c with Some _ => _ | None => _ end] => destruct c
               end; inversion B; reflexivity. }
    rewrite E. cbn [advance dumps]. lia.
  - intros l w0.
    destruct (loop_body throttle_type mds_max_purge_ops mds_max_purge_files l w0)
      as [[l1 | l1 | e] w1] eqn:B.
    + apply body_next_inv in B as (T & _ & _ & -> & ->).
      repeat split; try reflexivity; assumption.
    + apply body_break_inv in B as (_ & _ & _ & ->). reflexivity.
    + unfold loop_body in B. cbn [mds_asok_perf_dump] in B.
      repeat match type of B with
             | context [if ?c then _ else _] => destruct c
             | context [match ?c with Some _ => _ | None => _ end] => destruct c
             end; inversion B; reflexivity.
  - intros l w0 T. rewrite body_timeout by exact T. eauto.
Qed.

(** C4.  When [elapsed] reaches [purge_timeout], that is when the loop
    enters the pass after [purge_timeout] passes that went on, the monitor
    raises the timeout error with [total_inodes] and the snapshot of that
    pass, the last of the [purge_timeout + 1] taken; and in any pass entered
    with [elapsed >= purge_timeout] the snapshot is taken and the timeout
    raised whatever the snapshot holds. *)
Theorem timeout_carries_last_snapshot
    (throttle_type mds_max_purge_ops mds_max_purge_files : Z) (w : cluster) :
  sampled throttle_type mds_max_purge_ops mds_max_purge_files w (Z.to_nat purge_timeout) ->
  (exists w',
     monitor throttle_type mds_max_purge_ops mds_max_purge_files w =
       Some (Raised (RuntimeError
                       (Timeout_waiting total_inodes (sample w (Z.to_nat purge_timeout)))),
             w') /\
     dumps w' = (dumps w + Z.to_nat purge_timeout + 1)%nat /\
     slept w' = slept w + purge_timeout) /\
  (forall l w0,
     purge_timeout <= elapsed l ->
     loop_body throttle_type mds_max_purge_ops mds_max_purge_files l w0 =
       (Raise (RuntimeError (Timeout_waiting total_inodes (perf_dump w0 (dumps w0)))),
        snd (mds_asok_perf_dump w0))) /\
  (forall stats, failure_of (RuntimeError (Timeout_waiting total_inodes stats)) = TimeoutError).
Proof.
  intros S. split; [| split].
  - eexists. split; [apply monitor_timeout; [exact S | lia] |].
    cbn [mds_asok_perf_dump snd advance dumps slept]. split; [lia |].
    rewrite Z2Nat.id by (unfold purge_timeout; lia). reflexivity.
  - intros l w0 T. apply body_timeout, T.
  - reflexivity.
Qed.

Lemma timeout_carries_last_snapshot_witness :
  sampled FILES_THROTTLE 16 10 stuck (Z.to_nat purge_timeout) /\
  exists w',
    monitor FILES_THROTTLE 16 10 stuck =
      Some (Raised (RuntimeError (Timeout_waiting 401 waiting)), w') /\
    dumps w' = 601%nat /\ slept w' = 600.
Proof.
  assert (sampled FILES_THROTTLE 16 10 stuck (Z.to_nat purge_timeout)) as S.
  { unfold sampled. vm_compute. discriminate. }
  split; [exact S |].
  destruct (timeout_carries_last_snapshot FILES_THROTTLE 16 10 stuck S)
    as [(w' & M & D & E) _].
  exists w'. split; [exact M | split; [exact D | exact E]].
Defined.

(** C3, amended.  The monitor completes exactly when a snapshot sampled in a
    pass before the timeout ([elapsed < purge_timeout]) has
    [strays_purged = total_inodes = 401]; and whenever such a snapshot has
    [strays_purged > total_inodes] the monitor raises "Saw more strays than
    expected", an invariant violation.  The monitor always returns. *)
Theorem completed_iff_purged_before_timeout
    (throttle_type mds_max_purge_ops mds_max_purge_files : Z) (w : cluster) :
  total_inodes = 401 /\
  ((exists l w',
      monitor throttle_type mds_max_purge_ops mds_max_purge_files w = Some (Ok l, w')) <->
   (exists n,
      sampled throttle_type mds_max_purge_ops mds_max_purge_files w n /\
      Z.of_nat n < purge_timeout /\
      strays_purged (sample w n) = total_inodes)) /\
  (forall n,
     sampled throttle_type mds_max_purge_ops mds_max_purge_files w n ->
     Z.of_nat n < purge_timeout ->
     total_inodes < strays_purged (sample w n) ->
     exists e w',
       monitor throttle_type mds_max_purge_ops mds_max_purge_files w = Some (Raised e, w') /\
       e = RuntimeError (Saw_more_strays (sample w n)) /\
       failure_of e = InvariantViolation) /\
  (exists r, monitor throttle_type mds_max_purge_ops mds_max_purge_files w = Some r).
Proof.
  split; [reflexivity |]. split; [split | split].
  - intros (l & w' & H). apply monitor_completed in H as (n & S & T & P & _).
    exists n. auto.
  - intros (n & S & T & P).
    rewrite (monitor_break _ _ _ _ n S T P). eauto.
  - intros n S T P.
    rewrite (monitor_overshoot _ _ _ _ n S T P). eauto.
  - apply monitor_total.
Qed.

(** C3 as stated fails on the snapshot of the pass that times out: it is
    sampled and has [strays_purged = 401], and the monitor raises the timeout
    error; with 402 there, the timeout error again and no invariant
    violation. *)
Lemma purged_at_timeout_is_not_completed :
  (sampled FILES_THROTTLE 16 10 drains_late 600 /\
   strays_purged (sample drains_late 600) = 401 /\
   exists w',
     monitor FILES_THROTTLE 16 10 drains_late =
       Some (Raised (RuntimeError (Timeout_waiting 401 all_purged)), w')) /\
  (sampled FILES_THROTTLE 16 10 (overshoots_at 600) 600 /\
   strays_purged (sample (overshoots_at 600) 600) = 402 /\
   exists w',
     monitor FILES_THROTTLE 16 10 (overshoots_at 600) =
       Some (Raised (RuntimeError (Timeout_waiting 401 overshot)), w')).
Proof.
  split; (split; [unfold sampled; vm_compute; discriminate |]);
    (split; [reflexivity |]); eexists; vm_compute; reflexivity.
Qed.

(** C9, amended.  In a pass before the timeout ([elapsed < purge_timeout]),
    a snapshot with [strays_purged = total_inodes] and [num_strays_purging]
    above the files limit makes the monitor complete: the threshold test is
    not reached.  In no pass, the one that times out included, does a
    snapshot with [strays_purged = total_inodes] raise an invariant
    violation. *)
Theorem completion_before_threshold
    (throttle_type mds_max_purge_ops mds_max_purge_files : Z) (w : cluster) (n : nat) :
  sampled throttle_type mds_max_purge_ops mds_max_purge_files w n ->
  Z.of_nat n < purge_timeout ->
  strays_purged (sample w n) = total_inodes ->
  mds_max_purge_files < num_strays_purging (sample w n) ->
  (exists l w',
     monitor throttle_type mds_max_purge_ops mds_max_purge_files w = Some (Ok l, w') /\
     elapsed l = Z.of_nat n) /\
  (forall l w0 e w',
     strays_purged (perf_dump w0 (dumps w0)) = total_inodes ->
     loop_body throttle_type mds_max_purge_ops mds_max_purge_files l w0 = (Raise e, w') ->
     failure_of e = TimeoutError).
Proof.
  intros S T P _. split.
  - rewrite (monitor_break _ _ _ _ n S T P). eauto.
  - intros l w0 e w' E B.
    destruct (Z.le_gt_cases purge_timeout (elapsed l)) as [L | L].
    + rewrite body_timeout in B by exact L. inversion B. reflexivity.
    + rewrite body_break in B by assumption. discriminate.
Qed.

Lemma completion_before_threshold_witness :
  exists l w',
    monitor OPS_THROTTLE 16 10 (bursts_at 2) = Some (Ok l, w') /\ elapsed l = 2.
Proof.
  refine (proj1 (completion_before_threshold OPS_THROTTLE 16 10 (bursts_at 2) 2 _ _ _ _)).
  - unfold sampled. vm_compute. discriminate.
  - reflexivity.
  - reflexivity.
  - reflexivity.
Defined.

(** C9 as stated fails in the pass that times out: the snapshot sampled
    there has [strays_purged = 401] and 11 strays purging against a limit of
    10, and the monitor raises the timeout error instead of completing. *)
Lemma burst_at_timeout_is_not_completed :
  sampled FILES_THROTTLE 16 10 (bursts_at 600) 600 /\
  strays_purged (sample (bursts_at 600) 600) = total_inodes /\
  10 < num_strays_purging (sample (bursts_at 600) 600) /\
  exists w',
    monitor FILES_THROTTLE 16 10 (bursts_at 600) =
      Some (Raised (RuntimeError (Timeout_waiting 401 burst)), w').
Proof.
  split; [unfold sampled; vm_compute; discriminate |].
  split; [reflexivity |]. split; [reflexivity |].
  eexists; vm_compute; reflexivity.
Qed.

(** C1, amended.  For both throttle types and every snapshot sampled in a
    pass before the timeout that has neither [strays_purged = total_inodes]
    nor [strays_purged > total_inodes]: the monitor raises an invariant
    violation when [num_strays_purging] exceeds the files limit, and goes on
    to the next pass when it does not.  So in a run that completes,
    [num_strays_purging <= mds_max_purge_files] at every snapshot before the
    completing one. *)
Theorem threshold_checked_before_completion
    (throttle_type mds_max_purge_ops mds_max_purge_files : Z) (w : cluster) :
  throttle_type = OPS_THROTTLE \/ throttle_type = FILES_THROTTLE ->
  (forall n,
     sampled throttle_type mds_max_purge_ops mds_max_purge_files w n ->
     Z.of_nat n < purge_timeout ->
     strays_purged (sample w n) <> total_inodes ->
     ~ total_inodes < strays_purged (sample w n) ->
     (mds_max_purge_files < num_strays_purging (sample w n) ->
      exists e w',
        monitor throttle_type mds_max_purge_ops mds_max_purge_files w = Some (Raised e, w') /\
        failure_of e = InvariantViolation) /\
     (num_strays_purging (sample w n) <= mds_max_purge_files ->
      sampled throttle_type mds_max_purge_ops mds_max_purge_files w (S n))) /\
  (forall l w',
     monitor throttle_type mds_max_purge_ops mds_max_purge_files w = Some (Ok l, w') ->
     exists n,
       dumps w' = (dumps w + n + 1)%nat /\
       strays_purged (sample w n) = total_inodes /\
       forall i, (i < n)%nat -> num_strays_purging (sample w i) <= mds_max_purge_files).
Proof.
  intros K. split.
  - intros n S T NE NG.
    assert (strays_purged (sample w n) < total_inodes) as P by lia.
    split.
    + intros V.
      destruct (check_threshold throttle_type mds_max_purge_ops mds_max_purge_files
                                (sample w n)) as [e |] eqn:C.
      * rewrite (monitor_violation _ _ _ _ n e S T P C).
        apply threshold_some in C as [_ F]; eauto.
      * apply threshold_none in C; [lia | exact K].
    + intros V. apply sampled_iff. apply sampled_iff in S as [_ G].
      split; [lia |].
      intros i L. destruct (Nat.eq_dec i n) as [-> | D].
      * split; [exact P |]. apply threshold_none; assumption.
      * apply G. lia.
  - intros l w' H. apply monitor_completed in H as (n & S & T & P & _ & ->).
    exists n. split; [cbn [mds_asok_perf_dump snd advance dumps]; lia |].
    split; [exact P |].
    intros i L. apply sampled_iff in S as [_ G].
    destruct (G i L) as [_ C]. apply threshold_none in C; assumption.
Qed.

Lemma threshold_checked_before_completion_witness :
  (OPS_THROTTLE = OPS_THROTTLE \/ OPS_THROTTLE = FILES_THROTTLE) /\
  exists e w',
    monitor OPS_THROTTLE 16 10 floods = Some (Raised e, w') /\
    failure_of e = InvariantViolation.
Proof.
  split; [left; reflexivity |].
  refine (proj1 (proj1 (threshold_checked_before_completion OPS_THROTTLE 16 10 floods
                          (or_introl eq_refl)) 0%nat _ _ _ _) _).
  - unfold sampled. cbn. discriminate.
  - reflexivity.
  - cbn. discriminate.
  - cbn. discriminate.
  - reflexivity.
Defined.

(** C1 as stated fails on the completing snapshot: a files-throttle run
    over a limit of 10 completes on its first snapshot, which has 11 strays
    purging, and the whole test passes on that cluster.  It fails on the
    snapshot of the pass that times out as well: sampled, below
    [total_inodes], 11 strays purging over a limit of 10, and the error is
    the timeout. *)
Lemma completing_snapshot_exceeds_limit :
  ((exists l w', monitor FILES_THROTTLE 16 10 (bursts_at 0) = Some (Ok l, w')) /\
   sampled FILES_THROTTLE 16 10 (bursts_at 0) 0 /\
   10 < num_strays_purging (sample (bursts_at 0) 0) /\
   (exists w', test_files_throttle enough_fuel (bursts_at 0) = Some (Ok tt, w'))) /\
  (sampled FILES_THROTTLE 16 10 (crowds_at 600) 600 /\
   strays_purged (sample (crowds_at 600) 600) < total_inodes /\
   10 < num_strays_purging (sample (crowds_at 600) 600) /\
   exists w',
     monitor FILES_THROTTLE 16 10 (crowds_at 600) =
       Some (Raised (RuntimeError (Timeout_waiting 401 crowded)), w')).
Proof.
  split.
  - split; [do 2 eexists; vm_compute; reflexivity |].
    split; [unfold sampled; cbn; discriminate |].
    split; [reflexivity |].
    eexists; vm_compute; reflexivity.
  - split; [unfold sampled; vm_compute; discriminate |].
    split; [reflexivity |]. split; [reflexivity |].
    eexists; vm_compute; reflexivity.
Qed.

(** C7.  When the monitor completes, [ops_high_water] and
    [files_high_water] are the maxima, from 0, of [num_purge_ops] and
    [num_strays_purging] over all the snapshots taken during the run, the
    completing one, which is the last, included. *)
Theorem high_water_is_maximum
    (throttle_type mds_max_purge_ops mds_max_purge_files : Z) (w : cluster)
    (l : locals) (w' : cluster) :
  monitor throttle_type mds_max_purge_ops mds_max_purge_files w = Some (Ok l, w') ->
  exists n,
    dumps w' = (dumps w + S n)%nat /\
    strays_purged (sample w n) = total_inodes /\
    ops_high_water l = maximum 0 (map num_purge_ops (samples w (S n))) /\
    files_high_water l = maximum 0 (map num_strays_purging (samples w (S n))) /\
    (forall i, (i <= n)%nat ->
       num_purge_ops (sample w i) <= ops_high_water l /\
       num_strays_purging (sample w i) <= files_high_water l) /\
    (ops_high_water l = 0 \/
     exists i, (i <= n)%nat /\ ops_high_water l = num_purge_ops (sample w i)) /\
    (files_high_water l = 0 \/
     exists i, (i <= n)%nat /\ files_high_water l = num_strays_purging (sample w i)).
Proof.
  intros H. apply monitor_completed in H as (n & S & T & P & -> & ->).
  exists n. rewrite observe_maxima. cbn [ops_high_water files_high_water].
  split; [cbn [mds_asok_perf_dump snd advance dumps]; lia |].
  split; [exact P |]. split; [reflexivity |]. split; [reflexivity |].
  split; [| split].
  - intros i L.
    assert (In (sample w i) (samples w (Datatypes.S n))) as I.
    { unfold samples. apply in_map, in_seq. lia. }
    split; apply maximum_ge; apply in_map_iff; eauto.
  - destruct (maximum_attained (map num_purge_ops (samples w (Datatypes.S n))) 0)
      as [E | E]; [left; exact E | right].
    apply in_map_iff in E as (stats & E & I).
    apply in_map_iff in I as (i & <- & I). apply in_seq in I.
    exists i. split; [lia | symmetry; exact E].
  - destruct (maximum_attained (map num_strays_purging (samples w (Datatypes.S n))) 0)
      as [E | E]; [left; exact E | right].
    apply in_map_iff in E as (stats & E & I).
    apply in_map_iff in I as (i & <- & I). apply in_seq in I.
    exists i. split; [lia | symmetry; exact E].
Qed.

Lemma high_water_is_maximum_witness :
  exists l w',
    monitor FILES_THROTTLE 16 10 (bursts_at 2) = Some (Ok l, w') /\
    ops_high_water l = 12 /\ files_high_water l = 11.
Proof.
  destruct (monitor FILES_THROTTLE 16 10 (bursts_at 2)) as [[[l | e] w'] |] eqn:M;
    [| vm_compute in M; discriminate M | vm_compute in M; discriminate M].
  exists l, w'. split; [reflexivity |].
  destruct (high_water_is_maximum FILES_THROTTLE 16 10 (bursts_at 2) l w' M)
    as (n & D & _ & O & F & _).
  assert (n = 2%nat) as ->.
  { vm_compute in M. inversion M; subst w'. cbn in D. lia. }
  rewrite O, F. split; reflexivity.
Defined.

(** ** The workload *)


(** ** After the loop *)

Lemma lift_other_throttle_ok throttle_type w w0 :
  lift_other_throttle throttle_type w = Ok w0 ->
  (throttle_type = OPS_THROTTLE /\ w0 = set_conf_max_purge_files 100000000 w) \/
  (throttle_type = FILES_THROTTLE /\ w0 = set_conf_max_purge_ops 100000000 w).
Proof.
  unfold lift_other_throttle.
  destruct (Z.eqb_spec throttle_type OPS_THROTTLE) as [-> | _].
  - intros H; inversion H; auto.
  - destruct (Z.eqb_spec throttle_type FILES_THROTTLE) as [-> | _].
    + intros H; inversion H; auto.
    + discriminate.
Qed.

Lemma assertEqual_none first second : assertEqual first second = None <-> first = second.
Proof.
  unfold assertEqual. destruct (Z.eqb_spec first second); split; intros; congruence.
Qed.

Lemma assertEqual_some first second e :
  assertEqual first second = Some e -> e = AssertionError first second /\ first <> second.
Proof.
  unfold assertEqual. destruct (Z.eqb_spec first second); intros H; inversion H; auto.
Qed.

(** The sanity check passes on [all_purged] alone. *)
Lemma sanity_check_none stats :
  sanity_check stats = None <->
  num_strays stats = 0 /\ num_strays_purging stats = 0 /\
  num_strays_delayed stats = 0 /\ num_purge_ops stats = 0 /\
  strays_created stats = total_inodes /\ strays_purged stats = total_inodes.
Proof.
  unfold sanity_check, first_failure. cbn [fold_right]. split.
  - intros H.
    repeat match type of H with
           | match assertEqual ?a ?b with Some _ => _ | None => _ end = None =>
               let E := fresh "E" in
               destruct (assertEqual a b) eqn:E; [discriminate H |];
               apply assertEqual_none in E
           end.
    auto 10.
  - intros (A & B & C & D & E & F). rewrite A, B, C, D, E, F. reflexivity.
Qed.

Lemma sanity_check_all_purged stats : sanity_check stats = None <-> stats = all_purged.
Proof.
  rewrite sanity_check_none. split.
  - destruct stats; cbn. intros (-> & -> & -> & -> & -> & ->). reflexivity.
  - intros ->. cbn. auto 10.
Qed.

Lemma sanity_check_some stats e :
  sanity_check stats = Some e ->
  exists first second, e = AssertionError first second /\ first <> second.
Proof.
  unfold sanity_check, first_failure. cbn [fold_right]. intros H.
  repeat match type of H with
         | match assertEqual ?a ?b with Some _ => _ | None => _ end = Some _ =>
             let E := fresh "E" in
             destruct (assertEqual a b) eqn:E;
             [inversion H; subst; apply assertEqual_some in E as [-> ?]; eauto |]
         end.
  discriminate H.
Qed.

(** The test once its loop has completed: the heuristic, then the final
    snapshot and the sanity check. *)
Lemma test_throttling_after_loop fuel throttle_type w w0 l w2 :
  lift_other_throttle throttle_type w = Ok w0 ->
  purge_loop fuel throttle_type (max_purge_ops w0) (max_purge_files w0)
             initial_locals (make_strays w0) = Some (Ok l, w2) ->
  _test_throttling fuel throttle_type w =
    match check_high_water throttle_type (max_purge_ops w0) (max_purge_files w0) l with
    | Some e => Some (Raised e, w2)
    | None =>
        match sanity_check (perf_dump w2 (dumps w2)) with
        | Some e => Some (Raised e, snd (mds_asok_perf_dump w2))
        | None => Some (Ok tt, snd (mds_asok_perf_dump w2))
        end
    end.
Proof.
  intros L M. unfold _test_throttling. rewrite L.
  change (max_purge_ops (make_strays w0)) with (max_purge_ops w0).
  change (max_purge_files (make_strays w0)) with (max_purge_files w0).
  rewrite M. reflexivity.
Qed.

(** C5.  Once the loop has completed, the test raises a heuristic
    violation exactly when the high-water mark of the limit under test is
    below half that limit (floor division): [ops_high_water <
    mds_max_purge_ops / 2] for the ops throttle, [files_high_water <
    mds_max_purge_files / 2] for the files throttle. *)
Theorem heuristic_iff_below_half
    (fuel : nat) (throttle_type : Z) (w w0 : cluster) (l : locals) (w2 : cluster) :
  lift_other_throttle throttle_type w = Ok w0 ->
  purge_loop fuel throttle_type (max_purge_ops w0) (max_purge_files w0)
             initial_locals (make_strays w0) = Some (Ok l, w2) ->
  ((exists e w3,
      _test_throttling fuel throttle_type w = Some (Raised e, w3) /\
      failure_of e = HeuristicViolation) <->
   (throttle_type = OPS_THROTTLE /\ ops_high_water l < max_purge_ops w0 / 2) \/
   (throttle_type = FILES_THROTTLE /\ files_high_water l < max_purge_files w0 / 2)) /\
  (throttle_type = OPS_THROTTLE -> max_purge_ops w0 = max_purge_ops w) /\
  (throttle_type = FILES_THROTTLE -> max_purge_files w0 = max_purge_files w) /\
  (forall high_water limit, high_water < limit / 2 <-> 2 * high_water + 2 <= limit).
Proof.
  intros L M. rewrite (test_throttling_after_loop _ _ _ _ _ _ L M). clear M.
  apply lift_other_throttle_ok in L as [[-> ->] | [-> ->]];
    (split; [| split; [| split];
               [intros E; first [reflexivity | discriminate E] ..
               | intros high_water limit;
                 pose proof (Z.div_mod limit 2 ltac:(lia));
                 pose proof (Z.mod_pos_bound limit 2 ltac:(lia)); lia]]).
  - unfold check_high_water. cbn [Z.eqb OPS_THROTTLE Pos.eqb].
    destruct (Z.ltb_spec (ops_high_water l)
                (max_purge_ops (set_conf_max_purge_files 100000000 w) / 2)) as [B | B].
    + split; [auto | intros _; eauto].
    + split.
      * intros (e & w3 & E & F).
        destruct (sanity_check (perf_dump w2 (dumps w2))) as [e' |] eqn:C;
          inversion E; subst.
        apply sanity_check_some in C as (a & b & -> & _). discriminate F.
      * intros [[_ C] | [C _]]; [lia | discriminate C].
  - unfold check_high_water. cbn [Z.eqb OPS_THROTTLE FILES_THROTTLE Pos.eqb].
    destruct (Z.ltb_spec (files_high_water l)
                (max_purge_files (set_conf_max_purge_ops 100000000 w) / 2)) as [B | B].
    + split; [auto | intros _; eauto].
    + split.
      * intros (e & w3 & E & F).
        destruct (sanity_check (perf_dump w2 (dumps w2))) as [e' |] eqn:C;
          inversion E; subst.
        apply sanity_check_some in C as (a & b & -> & _). discriminate F.
      * intros [[C _] | [_ C]]; [discriminate C | lia].
Qed.

Lemma heuristic_iff_below_half_witness :
  exists e w3,
    _test_throttling enough_fuel FILES_THROTTLE trickles = Some (Raised e, w3) /\
    failure_of e = HeuristicViolation.
Proof.
  pose proof (heuristic_iff_below_half enough_fuel FILES_THROTTLE trickles
                (set_conf_max_purge_ops 100000000 trickles)) as H.
  eassert (purge_loop enough_fuel FILES_THROTTLE
             (max_purge_ops (set_conf_max_purge_ops 100000000 trickles))
             (max_purge_files (set_conf_max_purge_ops 100000000 trickles))
             initial_locals
             (make_strays (set_conf_max_purge_ops 100000000 trickles))
           = Some (Ok _, _)) as M.
  { vm_compute. reflexivity. }
  destruct (H _ _ eq_refl M) as [[_ B] _].
  apply B. right. split; [reflexivity | vm_compute; reflexivity].
Defined.

(** C8, amended.  Once the loop has completed and the high-water
    heuristic has passed, the test takes one more snapshot and asserts on
    it: it passes exactly when [num_strays], [num_strays_purging],
    [num_strays_delayed] and [num_purge_ops] are all 0 and [strays_created]
    and [strays_purged] are both [total_inodes = 401]; any other final
    snapshot makes it raise, an assertion error on two values that differ.
    When the heuristic fails the test raises that error and takes no final
    snapshot. *)
Theorem final_snapshot_all_purged
    (fuel : nat) (throttle_type : Z) (w w0 : cluster) (l : locals) (w2 : cluster) :
  lift_other_throttle throttle_type w = Ok w0 ->
  purge_loop fuel throttle_type (max_purge_ops w0) (max_purge_files w0)
             initial_locals (make_strays w0) = Some (Ok l, w2) ->
  let final := perf_dump w2 (dumps w2) in
  (check_high_water throttle_type (max_purge_ops w0) (max_purge_files w0) l = None ->
   exists r w3,
     _test_throttling fuel throttle_type w = Some (r, w3) /\
     w3 = snd (mds_asok_perf_dump w2) /\ dumps w3 = S (dumps w2) /\
     (r = Ok tt <->
      num_strays final = 0 /\ num_strays_purging final = 0 /\
      num_strays_delayed final = 0 /\ num_purge_ops final = 0 /\
      strays_created final = 401 /\ strays_purged final = 401) /\
     (r <> Ok tt ->
      exists first second, first <> second /\ r = Raised (AssertionError first second))) /\
  (forall e,
     check_high_water throttle_type (max_purge_ops w0) (max_purge_files w0) l = Some e ->
     _test_throttling fuel throttle_type w = Some (Raised e, w2) /\
     failure_of e = HeuristicViolation).
Proof.
  intros L M final. rewrite (test_throttling_after_loop _ _ _ _ _ _ L M).
  fold final. clear M L. split.
  - intros ->.
    destruct (sanity_check final) as [e |] eqn:C.
    + assert (~ (num_strays final = 0 /\ num_strays_purging final = 0 /\
                 num_strays_delayed final = 0 /\ num_purge_ops final = 0 /\
                 strays_created final = 401 /\ strays_purged final = 401)) as N.
      { intros F. apply sanity_check_none in F. congruence. }
      apply sanity_check_some in C as (a & b & -> & D).
      eexists. eexists. split; [reflexivity |]. split; [reflexivity |].
      split; [reflexivity |]. split.
      * split; [discriminate | contradiction].
      * intros _. eauto.
    + pose proof (proj1 (sanity_check_none final) C) as F.
      eexists. eexists. split; [reflexivity |]. split; [reflexivity |].
      split; [reflexivity |]. split.
      * split; [intros _; exact F | reflexivity].
      * intros N. contradiction N. reflexivity.
  - intros e E. rewrite E. split; [reflexivity |].
    revert E. unfold check_high_water.
    repeat match goal with
           | |- context [if ?c then _ else _] => destruct c
           end; intros E; inversion E; reflexivity.
Qed.

(** [monitor_break], on the loop. *)
Lemma loop_break throttle_type ops files w n :
  sampled throttle_type ops files w n -> Z.of_nat n < purge_timeout ->
  strays_purged (sample w n) = total_inodes ->
  purge_loop enough_fuel throttle_type ops files initial_locals w =
    Some (Ok (observe (locals_after n initial_locals w) (sample w n)),
          snd (mds_asok_perf_dump (advance n w))).
Proof. exact (monitor_break throttle_type ops files w n). Qed.

Lemma final_snapshot_all_purged_witness :
  (exists w3, _test_throttling enough_fuel OPS_THROTTLE (bursts_at 2) = Some (Ok tt, w3)) /\
  (exists first second w3,
     _test_throttling enough_fuel OPS_THROTTLE keeps_one =
       Some (Raised (AssertionError first second), w3)).
Proof.
  split.
  - pose (w0 := set_conf_max_purge_files 100000000 (bursts_at 2)).
    assert (sampled OPS_THROTTLE (max_purge_ops w0) (max_purge_files w0)
              (make_strays w0) 2) as S.
    { apply sampled_iff. split; [unfold purge_timeout; lia |].
      intros [| [| i]] I; [split; reflexivity | split; reflexivity | lia]. }
    pose proof (loop_break OPS_THROTTLE (max_purge_ops w0) (max_purge_files w0)
                  (make_strays w0) 2 S eq_refl eq_refl) as M.
    pose proof (final_snapshot_all_purged enough_fuel OPS_THROTTLE (bursts_at 2)
                w0 _ _ eq_refl M) as [B _].
    destruct (B eq_refl) as (r & w3 & E & _ & _ & [_ P] & _).
    exists w3. rewrite E, P; [reflexivity |]. repeat split; reflexivity.
  - pose (w0 := set_conf_max_purge_files 100000000 keeps_one).
    assert (sampled OPS_THROTTLE (max_purge_ops w0) (max_purge_files w0)
              (make_strays w0) 2) as S.
    { apply sampled_iff. split; [unfold purge_timeout; lia |].
      intros [| [| i]] I; [split; reflexivity | split; reflexivity | lia]. }
    pose proof (loop_break OPS_THROTTLE (max_purge_ops w0) (max_purge_files w0)
                  (make_strays w0) 2 S eq_refl eq_refl) as M.
    pose proof (final_snapshot_all_purged enough_fuel OPS_THROTTLE keeps_one
                w0 _ _ eq_refl M) as [B _].
    destruct (B eq_refl) as (r & w3 & E & _ & _ & [P _] & N).
    destruct N as (a & b & _ & ->).
    + intros ->. destruct (P eq_refl) as [Z _]. cbv in Z. discriminate Z.
    + exists a, b, w3. exact E.
Defined.

(** C8 as stated fails when the heuristic fails: on [trickles] the loop of
    the files-throttle test completes after three snapshots and the test
    raises the heuristic error with three snapshots taken still, no final
    one. *)
Lemma heuristic_error_takes_no_final_snapshot :
  (exists l w2,
     purge_loop enough_fuel FILES_THROTTLE 100000000 10 initial_locals
       (make_strays (set_conf_max_purge_ops 100000000 trickles)) = Some (Ok l, w2) /\
     dumps w2 = 3%nat) /\
  (exists w',
     _test_throttling enough_fuel FILES_THROTTLE trickles =
       Some (Raised (RuntimeError (Files_high_water_low 3 100000000)), w') /\
     dumps w' = 3%nat).
Proof.
  split.
  - do 2 eexists. split; [vm_compute; reflexivity | reflexivity].
  - eexists. split; [vm_compute; reflexivity | reflexivity].
Qed.

(** With [enough_fuel] the test always ends, passing or raising. *)
Lemma test_throttling_total throttle_type w :
  exists r, _test_throttling enough_fuel throttle_type w = Some r.
Proof.
  unfold _test_throttling.
  destruct (lift_other_throttle throttle_type w) as [w0 | e]; [| eauto].
  cbv zeta.
  destruct (monitor_total throttle_type (max_purge_ops (make_strays w0))
              (max_purge_files (make_strays w0)) (make_strays w0)) as [[[l | e] w2] M];
    unfold monitor in M; rewrite M; [| eauto].
  destruct (check_high_water throttle_type (max_purge_ops (make_strays w0))
              (max_purge_files (make_strays w0)) l); [eauto |].
  cbn [mds_asok_perf_dump].
  destruct (sanity_check (perf_dump w2 (dumps w2))); eauto.
Qed.

(** C2.  What the two threshold errors report.  The files throttle reports
    the values it compared, [num_strays_purging] and the files limit.  The
    ops throttle compares the same two values and reports [num_purge_ops] and
    the ops limit: on [floods] the ops-throttle test finds 100000001 strays
    purging over the lifted files limit of 100000000 and raises
    "num_purge_ops violates threshold 3/16". *)
Theorem ops_threshold_reports_other_values :
  (forall mds_max_purge_ops mds_max_purge_files stats,
     mds_max_purge_files < num_strays_purging stats ->
     check_threshold FILES_THROTTLE mds_max_purge_ops mds_max_purge_files stats =
       Some (RuntimeError
               (Strays_purging_violates (num_strays_purging stats) mds_max_purge_files)) /\
     check_threshold OPS_THROTTLE mds_max_purge_ops mds_max_purge_files stats =
       Some (RuntimeError (Purge_ops_violates (num_purge_ops stats) mds_max_purge_ops))) /\
  (exists w',
     _test_throttling enough_fuel OPS_THROTTLE floods =
       Some (Raised (RuntimeError (Purge_ops_violates 3 16)), w') /\
     max_purge_files w' = 100000000 /\
     num_strays_purging (perf_dump w' 0) = 100000001).
Proof.
  split.
  - intros mo mf stats V. unfold check_threshold.
    cbn [Z.eqb OPS_THROTTLE FILES_THROTTLE Pos.eqb].
    destruct (Z.gtb_spec (num_strays_purging stats) mf); [split; reflexivity | lia].
  - eexists. split; [vm_compute; reflexivity |]. split; reflexivity.
Qed.

(** ** Further properties of the loop *)

Section Raises.

Variables throttle_type mds_max_purge_ops mds_max_purge_files : Z.

Local Abbreviation body := (loop_body throttle_type mds_max_purge_ops mds_max_purge_files).
Local Abbreviation threshold :=
  (check_threshold throttle_type mds_max_purge_ops mds_max_purge_files).

(** The three ways a pass raises. *)
Lemma body_raise_inv l w e w' :
  body l w = (Raise e, w') ->
  w' = snd (mds_asok_perf_dump w) /\
  ((purge_timeout <= elapsed l /\
    e = RuntimeError (Timeout_waiting total_inodes (perf_dump w (dumps w)))) \/
   (elapsed l < purge_timeout /\ total_inodes < strays_purged (perf_dump w (dumps w)) /\
    e = RuntimeError (Saw_more_strays (perf_dump w (dumps w)))) \/
   (elapsed l < purge_timeout /\ strays_purged (perf_dump w (dumps w)) < total_inodes /\
    threshold (perf_dump w (dumps w)) = Some e)).
Proof.
  intros H.
  destruct (Z.le_gt_cases purge_timeout (elapsed l)) as [T | T].
  { rewrite body_timeout in H by assumption. inversion H; auto. }
  destruct (Z.lt_total (strays_purged (perf_dump w (dumps w))) total_inodes)
    as [B | [B | B]].
  - rewrite body_below in H by assumption.
    destruct (threshold (perf_dump w (dumps w))) eqn:C; inversion H; subst; auto 10.
  - rewrite body_break in H by assumption. discriminate.
  - rewrite body_overshoot in H by assumption. inversion H; auto 10.
Qed.

(** With one of the two throttle types the loop raises a timeout or an
    invariant violation, nothing else. *)
Lemma loop_raises fuel l w e w' :
  throttle_type = OPS_THROTTLE \/ throttle_type = FILES_THROTTLE ->
  purge_loop fuel throttle_type mds_max_purge_ops mds_max_purge_files l w =
    Some (Raised e, w') ->
  failure_of e = TimeoutError \/ failure_of e = InvariantViolation.
Proof.
  intros K H. apply loop_left in H as (n & l1 & w1 & _ & _ & [(l2 & _ & E) | (e' & B & E)]).
  - discriminate E.
  - inversion E; subst e'.
    apply body_raise_inv in B as (_ & [(_ & ->) | [(_ & _ & ->) | (_ & _ & C)]]).
    + left; reflexivity.
    + right; reflexivity.
    + right. apply threshold_some in C as [_ F]; assumption.
Qed.

End Raises.

(** X1.  A throttle type other than the two known ones makes the test fail
    at once, before any command reaches the cluster: the source's
    [raise NotImplemented(throttle_type)] calls [NotImplemented], which is
    not callable, so what is raised is a [TypeError].  This is the only way
    the test raises it: with a known throttle type the [else] branch of the
    threshold test in the loop is never reached. *)
Theorem unknown_throttle_type_touches_nothing (fuel : nat) (throttle_type : Z) (w : cluster) :
  (throttle_type <> OPS_THROTTLE -> throttle_type <> FILES_THROTTLE ->
   _test_throttling fuel throttle_type w = Some (Raised TypeError, w)) /\
  (forall w',
     _test_throttling fuel throttle_type w = Some (Raised TypeError, w') ->
     w' = w /\ throttle_type <> OPS_THROTTLE /\ throttle_type <> FILES_THROTTLE).
Proof.
  split.
  - intros A B. unfold _test_throttling, lift_other_throttle.
    destruct (Z.eqb_spec throttle_type OPS_THROTTLE); [contradiction |].
    destruct (Z.eqb_spec throttle_type FILES_THROTTLE); [contradiction |].
    reflexivity.
  - intros w' H.
    destruct (lift_other_throttle throttle_type w) as [w0 | e] eqn:L.
    + exfalso.
      pose proof (lift_other_throttle_ok _ _ _ L) as K.
      assert (throttle_type = OPS_THROTTLE \/ throttle_type = FILES_THROTTLE) as K'
        by (destruct K as [[-> _] | [-> _]]; auto).
      unfold _test_throttling in H. rewrite L in H. cbv zeta in H.
      destruct (purge_loop fuel throttle_type (max_purge_ops (make_strays w0))
                  (max_purge_files (make_strays w0)) initial_locals (make_strays w0))
        as [[[l | e] w2] |] eqn:M; [| | discriminate H].
      * destruct (check_high_water throttle_type (max_purge_ops (make_strays w0))
                    (max_purge_files (make_strays w0)) l) as [e |] eqn:C.
        -- inversion H; subst e. revert C. unfold check_high_water.
           repeat match goal with
                  | |- context [if ?c then _ else _] => destruct c
                  end; discriminate.
        -- cbn [mds_asok_perf_dump] in H.
           destruct (sanity_check (perf_dump w2 (dumps w2))) as [e |] eqn:S;
             [| discriminate H].
           inversion H; subst e.
           apply sanity_check_some in S as (a & b & S & _). discriminate S.
      * inversion H; subst e.
        apply (loop_raises _ _ _ _ _ _ _ _ K') in M as [F | F]; discriminate F.
    + unfold _test_throttling in H. rewrite L in H. inversion H; subst.
      revert L. unfold lift_other_throttle.
      destruct (Z.eqb_spec throttle_type OPS_THROTTLE); [discriminate |].
      destruct (Z.eqb_spec throttle_type FILES_THROTTLE); [discriminate |].
      intros L; inversion L; subst; auto.
Qed.

(** The threshold tests of the two throttle types raise on the same
    snapshots, whatever the ops limits. *)
Lemma threshold_same_for_both_kinds ops ops' files stats :
  match check_threshold OPS_THROTTLE ops files stats,
        check_threshold FILES_THROTTLE ops' files stats with
  | None, None => True
  | Some e, Some e' => failure_of e = failure_of e'
  | _, _ => False
  end.
Proof.
  unfold check_threshold. cbn [Z.eqb OPS_THROTTLE FILES_THROTTLE Pos.eqb].
  destruct (num_strays_purging stats >? files); [reflexivity | exact I].
Qed.

Lemma body_same_for_both_kinds ops ops' files l w :
  match loop_body OPS_THROTTLE ops files l w, loop_body FILES_THROTTLE ops' files l w with
  | (Next l1, w1), (Next l2, w2) => l1 = l2 /\ w1 = w2
  | (Break l1, w1), (Break l2, w2) => l1 = l2 /\ w1 = w2
  | (Raise e1, w1), (Raise e2, w2) => failure_of e1 = failure_of e2 /\ w1 = w2
  | _, _ => False
  end.
Proof.
  unfold loop_body. cbn [mds_asok_perf_dump].
  destruct (elapsed l >=? purge_timeout); [split; reflexivity |].
  destruct (strays_purged (perf_dump w (dumps w)) =? total_inodes); [split; reflexivity |].
  destruct (strays_purged (perf_dump w (dumps w)) >? total_inodes); [split; reflexivity |].
  pose proof (threshold_same_for_both_kinds ops ops' files (perf_dump w (dumps w))) as T.
  destruct (check_threshold OPS_THROTTLE ops files (perf_dump w (dumps w)));
    destruct (check_threshold FILES_THROTTLE ops' files (perf_dump w (dumps w)));
    try contradiction; split; auto.
Qed.

(** X2.  The ops-throttle loop and the files-throttle loop are the same
    loop: on the same snapshots and with the same files limit they end in
    the same pass with the same locals or the same class of failure,
    whatever the two ops limits; only the text of the threshold error
    differs. *)
Theorem both_kinds_run_the_same_loop (fuel : nat) (ops ops' files : Z)
    (l : locals) (w : cluster) :
  option_map (fun rw => (outcome_class (fst rw), snd rw))
             (purge_loop fuel OPS_THROTTLE ops files l w) =
  option_map (fun rw => (outcome_class (fst rw), snd rw))
             (purge_loop fuel FILES_THROTTLE ops' files l w).
Proof.
  revert l w. induction fuel as [| fuel IH]; intros l w; [reflexivity |].
  cbn [purge_loop].
  pose proof (body_same_for_both_kinds ops ops' files l w) as B.
  destruct (loop_body OPS_THROTTLE ops files l w) as [[l1 | l1 | e1] w1];
    destruct (loop_body FILES_THROTTLE ops' files l w) as [[l2 | l2 | e2] w2];
    try contradiction; destruct B as [E ->].
  - subst l2. apply IH.
  - subst l2. reflexivity.
  - cbn [option_map fst snd outcome_class]. rewrite E. reflexivity.
Qed.

Section Accounting.

Variables throttle_type mds_max_purge_ops mds_max_purge_files : Z.

(** Where a loop that is left has brought the cluster: [n] passes went on,
    one more took its snapshot. *)
Lemma loop_leaves fuel l w r w' :
  purge_loop fuel throttle_type mds_max_purge_ops mds_max_purge_files l w = Some (r, w') ->
  exists n,
    (n < fuel)%nat /\
    w' = snd (mds_asok_perf_dump (advance n w)) /\
    ((0 < n)%nat -> elapsed l + Z.of_nat n <= purge_timeout) /\
    match r with
    | Ok l' => elapsed l' = elapsed l + Z.of_nat n /\ elapsed l' < purge_timeout
    | Raised _ => True
    end.
Proof.
  intros H. apply loop_left in H as (n & l1 & w1 & F & P & D).
  apply after_inv in P as (-> & -> & T & _).
  exists n. split; [exact F |].
  destruct D as [(l2 & B & ->) | (e & B & ->)].
  - apply body_break_inv in B as (L & _ & -> & ->).
    split; [reflexivity |]. split; [intros; apply T; lia |].
    cbn [observe locals_after elapsed] in *. lia.
  - apply body_raise_inv in B as (-> & _).
    split; [reflexivity |]. split; [intros; apply T; lia | exact I].
Qed.

End Accounting.

(** X3.  However the monitor is left, after [n] passes that went on, it
    has taken [n + 1] snapshots and slept [n] seconds, [n <= 600]: one second
    between two snapshots and none after the last.  It has changed nothing
    else in the cluster, and on completion [elapsed], the seconds reported in
    the log, is [n < 600]. *)
Theorem monitor_takes_one_snapshot_per_second
    (throttle_type mds_max_purge_ops mds_max_purge_files : Z) (w : cluster)
    (r : result locals) (w' : cluster) :
  monitor throttle_type mds_max_purge_ops mds_max_purge_files w = Some (r, w') ->
  exists n : nat,
    Z.of_nat n <= purge_timeout /\
    dumps w' = (dumps w + n + 1)%nat /\
    slept w' = slept w + Z.of_nat n /\
    perf_dump w' = perf_dump w /\
    max_purge_ops w' = max_purge_ops w /\
    max_purge_files w' = max_purge_files w /\
    issued w' = issued w /\
    match r with
    | Ok l => elapsed l = Z.of_nat n /\ Z.of_nat n < purge_timeout
    | Raised _ => True
    end.
Proof.
  intros H. unfold monitor in H.
  apply loop_leaves in H as (n & F & -> & T & R).
  exists n. cbn [mds_asok_perf_dump snd advance dumps slept perf_dump max_purge_ops
                 max_purge_files issued initial_locals elapsed] in *.
  split.
  { destruct n as [| n]; [unfold purge_timeout; lia | apply T; lia]. }
  repeat (split; [first [reflexivity | lia] |]).
  destruct r; [lia | exact I].
Qed.

Lemma monitor_takes_one_snapshot_per_second_witness :
  exists n : nat,
    Z.of_nat n <= purge_timeout /\
    dumps (snd (mds_asok_perf_dump (advance 3 (drains_in 3)))) = (0 + n + 1)%nat.
Proof.
  assert (monitor FILES_THROTTLE 16 10 (drains_in 3) =
          Some (Ok (observe (locals_after 3 initial_locals (drains_in 3))
                            (sample (drains_in 3) 3)),
                snd (mds_asok_perf_dump (advance 3 (drains_in 3))))) as M.
  { apply monitor_break; [unfold sampled; vm_compute; discriminate | reflexivity ..]. }
  destruct (monitor_takes_one_snapshot_per_second _ _ _ _ _ _ M) as (n & T & D & _).
  exists n. split; [exact T | exact D].
Defined.

(** X4.  With one of the two throttle types, the monitor raises the timeout
    error exactly when each of the first 600 snapshots has
    [strays_purged < total_inodes] and [num_strays_purging] within the files
    limit: a purge that completes in the 600th snapshot is still accepted. *)
Theorem timeout_iff_nothing_happens_for_600_snapshots
    (throttle_type mds_max_purge_ops mds_max_purge_files : Z) (w : cluster) :
  throttle_type = OPS_THROTTLE \/ throttle_type = FILES_THROTTLE ->
  ((exists e w',
      monitor throttle_type mds_max_purge_ops mds_max_purge_files w = Some (Raised e, w') /\
      failure_of e = TimeoutError) <->
   (forall i, (i < 600)%nat ->
      strays_purged (sample w i) < total_inodes /\
      num_strays_purging (sample w i) <= mds_max_purge_files)).
Proof.
  intros K. split.
  - intros (e & w' & H & F).
    apply monitor_left in H as (n & S & [(l & _ & E) | (e' & B & E)]); [discriminate E |].
    inversion E; subst e'.
    apply body_raise_inv in B as (_ & [(T & _) | [(_ & _ & ->) | (_ & _ & C)]]).
    + apply sampled_iff in S as [L G].
      rewrite elapsed_at in T.
      intros i I. destruct (G i) as [P C].
      { unfold purge_timeout in *. lia. }
      split; [exact P |]. apply threshold_none in C; assumption.
    + discriminate F.
    + apply threshold_some in C as [_ F']; [| exact K]. congruence.
  - intros G.
    assert (sampled throttle_type mds_max_purge_ops mds_max_purge_files w 600) as S.
    { apply sampled_iff. split; [unfold purge_timeout; lia |].
      intros i I. destruct (G i I) as [P C].
      split; [exact P |]. apply threshold_none; assumption. }
    rewrite (monitor_timeout _ _ _ _ 600 S) by (unfold purge_timeout; lia).
    eauto.
Qed.

Lemma timeout_iff_nothing_happens_for_600_snapshots_witness :
  exists e w', monitor OPS_THROTTLE 16 10 stuck = Some (Raised e, w') /\
               failure_of e = TimeoutError.
Proof.
  apply (proj2 (timeout_iff_nothing_happens_for_600_snapshots OPS_THROTTLE 16 10 stuck
                  (or_introl eq_refl))).
  intros i _. split; [reflexivity | cbn; lia].
Defined.

(** The loop of the test, for any fuel: what it leaves of the cluster. *)
Lemma test_throttling_inv fuel throttle_type w r w' :
  _test_throttling fuel throttle_type w = Some (r, w') ->
  (r = Raised TypeError /\ w' = w /\
   throttle_type <> OPS_THROTTLE /\ throttle_type <> FILES_THROTTLE) \/
  exists w0 n,
    lift_other_throttle throttle_type w = Ok w0 /\
    (n < fuel)%nat /\
    ((0 < n)%nat -> Z.of_nat n <= purge_timeout) /\
    ((w' = snd (mds_asok_perf_dump (advance n (make_strays w0))) /\ r <> Ok tt) \/
     (w' = snd (mds_asok_perf_dump
                  (snd (mds_asok_perf_dump (advance n (make_strays w0))))) /\
      Z.of_nat n < purge_timeout)).
Proof.
  intros H. unfold _test_throttling in H.
  destruct (lift_other_throttle throttle_type w) as [w0 | e] eqn:L.
  - right. cbv zeta in H.
    destruct (purge_loop fuel throttle_type (max_purge_ops (make_strays w0))
                (max_purge_files (make_strays w0)) initial_locals (make_strays w0))
      as [[[l | e] w2] |] eqn:M; [| | discriminate H].
    + apply loop_leaves in M as (n & F & -> & T & E & B).
      cbn [initial_locals elapsed] in *.
      exists w0, n. split; [reflexivity |]. split; [exact F |].
      split; [intros; apply T; assumption |].
      destruct (check_high_water throttle_type (max_purge_ops (make_strays w0))
                  (max_purge_files (make_strays w0)) l).
      * inversion H; subst. left. split; [reflexivity | discriminate].
      * right. split; [| lia].
        destruct (mds_asok_perf_dump (snd (mds_asok_perf_dump (advance n (make_strays w0)))))
          as [stats w3] eqn:D.
        destruct (sanity_check stats); inversion H; subst; reflexivity.
    + apply loop_leaves in M as (n & F & -> & T & _).
      cbn [initial_locals elapsed] in *.
      exists w0, n. split; [reflexivity |]. split; [exact F |].
      split; [intros; apply T; assumption |].
      inversion H; subst. left. split; [reflexivity | discriminate].
  - left. inversion H; subst.
    revert L. unfold lift_other_throttle.
    destruct (Z.eqb_spec throttle_type OPS_THROTTLE); [discriminate |].
    destruct (Z.eqb_spec throttle_type FILES_THROTTLE); [discriminate |].
    intros L; inversion L; auto.
Qed.

(** X5.  The whole test always ends, having taken at most 602 snapshots and
    slept at most 600 seconds; a passing test has taken two snapshots more
    than the seconds it slept. *)
Theorem test_takes_at_most_602_snapshots (throttle_type : Z) (w : cluster) :
  exists r w',
    _test_throttling enough_fuel throttle_type w = Some (r, w') /\
    (dumps w' <= dumps w + 602)%nat /\
    slept w <= slept w' <= slept w + 600 /\
    (r = Ok tt -> Z.of_nat (dumps w') = Z.of_nat (dumps w) + (slept w' - slept w) + 2).
Proof.
  destruct (test_throttling_total throttle_type w) as [[r w'] H].
  exists r, w'. split; [exact H |].
  apply test_throttling_inv in H as [(-> & -> & _) | (w0 & n & L & F & T & D)].
  - split; [lia |]. split; [lia | discriminate].
  - assert (Z.of_nat n <= 600) as B.
    { destruct n as [| n]; [lia | apply T; lia]. }
    assert (dumps w0 = dumps w /\ slept w0 = slept w) as [Ed Es].
    { apply lift_other_throttle_ok in L as [[_ ->] | [_ ->]]; split; reflexivity. }
    destruct D as [[-> N] | [-> C]];
      cbn [mds_asok_perf_dump snd advance make_strays issue dumps slept];
      rewrite Ed, Es.
    + split; [lia |]. split; [lia | contradiction].
    + unfold purge_timeout in C. split; [lia |]. split; [lia |]. intros _. lia.
Qed.

(** ** What a passing test means *)

Lemma check_high_water_none_files ops files l :
  check_high_water FILES_THROTTLE ops files l = None <-> files / 2 <= files_high_water l.
Proof.
  unfold check_high_water. cbn [Z.eqb OPS_THROTTLE FILES_THROTTLE Pos.eqb].
  destruct (Z.ltb_spec (files_high_water l) (files / 2)); split; intros;
    try discriminate; try lia; reflexivity.
Qed.

Lemma check_high_water_none_ops ops files l :
  check_high_water OPS_THROTTLE ops files l = None <-> ops / 2 <= ops_high_water l.
Proof.
  unfold check_high_water. cbn [Z.eqb OPS_THROTTLE Pos.eqb].
  destruct (Z.ltb_spec (ops_high_water l) (ops / 2)); split; intros;
    try discriminate; try lia; reflexivity.
Qed.

Lemma test_throttling_loop_raises fuel throttle_type w w0 :
  lift_other_throttle throttle_type w = Ok w0 ->
  match purge_loop fuel throttle_type (max_purge_ops w0) (max_purge_files w0)
                   initial_locals (make_strays w0) with
  | None => _test_throttling fuel throttle_type w = None
  | Some (Raised e, w2) => _test_throttling fuel throttle_type w = Some (Raised e, w2)
  | Some (Ok _, _) => True
  end.
Proof.
  intros L. unfold _test_throttling. rewrite L. cbv zeta.
  change (max_purge_ops (make_strays w0)) with (max_purge_ops w0).
  change (max_purge_files (make_strays w0)) with (max_purge_files w0).
  destruct (purge_loop fuel throttle_type (max_purge_ops w0) (max_purge_files w0)
              initial_locals (make_strays w0)) as [[[l | e] w2] |]; auto.
Qed.

(** The test passes exactly when some pass [n] before the timeout completes
    the loop, the heuristic accepts the high-water marks of the [n + 1]
    snapshots, and the snapshot after them passes the sanity check. *)
Lemma test_passes_iff throttle_type w w0 :
  lift_other_throttle throttle_type w = Ok w0 ->
  ((exists w', _test_throttling enough_fuel throttle_type w = Some (Ok tt, w')) <->
   (exists n,
      Z.of_nat n < purge_timeout /\
      (forall i, (i < n)%nat ->
         goes_on throttle_type (max_purge_ops w0) (max_purge_files w0)
                 (sample (make_strays w0) i)) /\
      strays_purged (sample (make_strays w0) n) = total_inodes /\
      check_high_water throttle_type (max_purge_ops w0) (max_purge_files w0)
        (observe (locals_after n initial_locals (make_strays w0))
                 (sample (make_strays w0) n)) = None /\
      sanity_check (sample (make_strays w0) (S n)) = None)).
Proof.
  intros L. split.
  - intros (w' & H).
    destruct (monitor throttle_type (max_purge_ops w0) (max_purge_files w0) (make_strays w0))
      as [[[l | e] w2] |] eqn:M.
    + pose proof M as M'. unfold monitor in M'.
      rewrite (test_throttling_after_loop _ _ _ _ _ _ L M') in H.
      apply monitor_completed in M as (n & S & T & P & -> & ->).
      exists n. split; [exact T |].
      apply sampled_iff in S as [_ G]. split; [exact G |]. split; [exact P |].
      destruct (check_high_water throttle_type (max_purge_ops w0) (max_purge_files w0)
                  (observe (locals_after n initial_locals (make_strays w0))
                           (sample (make_strays w0) n))); [discriminate H |].
      split; [reflexivity |].
      replace (sample (make_strays w0) (S n))
        with (perf_dump (snd (mds_asok_perf_dump (advance n (make_strays w0))))
                (dumps (snd (mds_asok_perf_dump (advance n (make_strays w0)))))).
      * destruct (sanity_check _); [discriminate H | reflexivity].
      * unfold sample. cbn [mds_asok_perf_dump snd advance dumps perf_dump].
        f_equal. lia.
    + exfalso. pose proof (test_throttling_loop_raises enough_fuel _ _ _ L) as R.
      unfold monitor in M. rewrite M in R. congruence.
    + exfalso. pose proof (test_throttling_loop_raises enough_fuel _ _ _ L) as R.
      unfold monitor in M. rewrite M in R. congruence.
  - intros (n & T & G & P & C & S).
    assert (sampled throttle_type (max_purge_ops w0) (max_purge_files w0)
                    (make_strays w0) n) as Sn.
    { apply sampled_iff. split; [lia | exact G]. }
    pose proof (monitor_break _ _ _ _ n Sn T P) as M. unfold monitor in M.
    rewrite (test_throttling_after_loop _ _ _ _ _ _ L M), C.
    replace (perf_dump (snd (mds_asok_perf_dump (advance n (make_strays w0))))
               (dumps (snd (mds_asok_perf_dump (advance n (make_strays w0))))))
      with (sample (make_strays w0) (Datatypes.S n)).
    + rewrite S. eauto.
    + unfold sample. cbn [mds_asok_perf_dump snd advance dumps perf_dump].
      f_equal. lia.
Qed.

(** X7.  The files-throttle test passes exactly when, for some [n < 600],
    the first [n] snapshots have [strays_purged < total_inodes] and
    [num_strays_purging] within the configured files limit, snapshot [n] has
    [strays_purged = total_inodes], the largest [num_strays_purging] of these
    [n + 1] snapshots (or 0) is at least half the files limit, and the next
    snapshot is [all_purged]. *)
Theorem files_test_passes_iff (w : cluster) :
  (exists w', test_files_throttle enough_fuel w = Some (Ok tt, w')) <->
  (exists n,
     (n < 600)%nat /\
     (forall i, (i < n)%nat ->
        strays_purged (sample w i) < total_inodes /\
        num_strays_purging (sample w i) <= max_purge_files w) /\
     strays_purged (sample w n) = total_inodes /\
     max_purge_files w / 2 <= maximum 0 (map num_strays_purging (samples w (S n))) /\
     sample w (S n) = all_purged).
Proof.
  unfold test_files_throttle.
  rewrite (test_passes_iff FILES_THROTTLE w (set_conf_max_purge_ops 100000000 w) eq_refl).
  split; intros (n & T & G & P & C & S); exists n.
  - split; [unfold purge_timeout in T; lia |].
    split.
    { intros i I. destruct (G i I) as [A B]. split; [exact A |].
      apply threshold_none in B; auto. }
    split; [exact P |].
    rewrite observe_maxima in C. apply check_high_water_none_files in C.
    split; [exact C |]. apply sanity_check_all_purged, S.
  - split; [unfold purge_timeout; lia |].
    split.
    { intros i I. destruct (G i I) as [A B]. split; [exact A |].
      apply threshold_none; auto. }
    split; [exact P |].
    rewrite observe_maxima.
    split; [apply check_high_water_none_files; exact C |].
    apply sanity_check_all_purged, S.
Qed.

(** X8.  The ops-throttle test passes exactly when, for some [n < 600], the
    first [n] snapshots have [strays_purged < total_inodes] and at most
    100000000 strays purging, snapshot [n] has [strays_purged =
    total_inodes], the largest [num_purge_ops] of these [n + 1] snapshots (or
    0) is at least half the configured ops limit, and the next snapshot is
    [all_purged].  No upper bound on [num_purge_ops] is part of it. *)
Theorem ops_test_passes_iff (w : cluster) :
  (exists w', test_ops_throttle enough_fuel w = Some (Ok tt, w')) <->
  (exists n,
     (n < 600)%nat /\
     (forall i, (i < n)%nat ->
        strays_purged (sample w i) < total_inodes /\
        num_strays_purging (sample w i) <= 100000000) /\
     strays_purged (sample w n) = total_inodes /\
     max_purge_ops w / 2 <= maximum 0 (map num_purge_ops (samples w (S n))) /\
     sample w (S n) = all_purged).
Proof.
  unfold test_ops_throttle.
  rewrite (test_passes_iff OPS_THROTTLE w (set_conf_max_purge_files 100000000 w) eq_refl).
  split; intros (n & T & G & P & C & S); exists n.
  - split; [unfold purge_timeout in T; lia |].
    split.
    { intros i I. destruct (G i I) as [A B]. split; [exact A |].
      apply threshold_none in B; auto. }
    split; [exact P |].
    rewrite observe_maxima in C. apply check_high_water_none_ops in C.
    split; [exact C |]. apply sanity_check_all_purged, S.
  - split; [unfold purge_timeout; lia |].
    split.
    { intros i I. destruct (G i I) as [A B]. split; [exact A |].
      apply (threshold_none OPS_THROTTLE); auto. }
    split; [exact P |].
    rewrite observe_maxima.
    split; [apply check_high_water_none_ops; exact C |].
    apply sanity_check_all_purged, S.
Qed.

(** A loop that completes, for any fuel. *)
Lemma loop_completed fuel throttle_type ops files w l w' :
  purge_loop fuel throttle_type ops files initial_locals w = Some (Ok l, w') ->
  exists n,
    l = observe (locals_after n initial_locals w) (sample w n) /\
    w' = snd (mds_asok_perf_dump (advance n w)).
Proof.
  intros H. apply loop_left in H as (n & l1 & w1 & _ & P & [(l2 & B & E) | (e & _ & E)]);
    [| discriminate E].
  inversion E; subst l2.
  apply after_inv in P as (-> & -> & _).
  apply body_break_inv in B as (_ & _ & -> & ->).
  exists n. split; reflexivity.
Qed.

(** X9.  When the files-throttle test raises the heuristic violation, the
    comparison that failed is the one of the largest [num_strays_purging]
    seen with half the files limit, and the error reports the largest
    [num_purge_ops] seen and the lifted ops limit, 100000000. *)
Theorem files_heuristic_error_reports_ops_values (fuel : nat) (w : cluster)
    (e : exn) (w' : cluster) :
  test_files_throttle fuel w = Some (Raised e, w') ->
  failure_of e = HeuristicViolation ->
  exists k,
    dumps w' = (dumps w + k)%nat /\
    maximum 0 (map num_strays_purging (samples w k)) < max_purge_files w / 2 /\
    e = RuntimeError
          (Files_high_water_low (maximum 0 (map num_purge_ops (samples w k))) 100000000).
Proof.
  unfold test_files_throttle. intros H F.
  pose proof (test_throttling_loop_raises fuel FILES_THROTTLE w
                (set_conf_max_purge_ops 100000000 w) eq_refl) as R.
  destruct (purge_loop fuel FILES_THROTTLE
              (max_purge_ops (set_conf_max_purge_ops 100000000 w))
              (max_purge_files (set_conf_max_purge_ops 100000000 w))
              initial_locals (make_strays (set_conf_max_purge_ops 100000000 w)))
    as [[[l | e'] w2] |] eqn:M.
  - clear R.
    rewrite (test_throttling_after_loop fuel FILES_THROTTLE w
               (set_conf_max_purge_ops 100000000 w) l w2 eq_refl M) in H.
    apply loop_completed in M as (n & -> & ->).
    rewrite observe_maxima in H.
    unfold check_high_water in H.
    cbn [Z.eqb OPS_THROTTLE FILES_THROTTLE Pos.eqb files_high_water ops_high_water] in H.
    match type of H with
    | context [if ?a <? ?b then _ else _] => destruct (Z.ltb_spec a b) as [B | B]
    end.
    + inversion H; subst. exists (S n).
      split; [cbn [mds_asok_perf_dump snd advance make_strays issue dumps
                   set_conf_max_purge_ops]; lia |].
      split; [exact B | reflexivity].
    + exfalso. destruct (sanity_check _) as [a |] eqn:C; inversion H; subst.
      apply sanity_check_some in C as (x & y & -> & _). discriminate F.
  - exfalso. rewrite R in H. inversion H; subst e'.
    apply loop_raises in M as [T | T]; [congruence | congruence | right; reflexivity].
  - exfalso. congruence.
Qed.

Lemma files_heuristic_error_reports_ops_values_witness :
  exists k,
    (k = 3)%nat /\
    maximum 0 (map num_strays_purging (samples trickles k)) < max_purge_files trickles / 2.
Proof.
  eassert (test_files_throttle enough_fuel trickles = Some (Raised _, _)) as H.
  { vm_compute. reflexivity. }
  destruct (files_heuristic_error_reports_ops_values _ _ _ _ H eq_refl) as (k & D & B & _).
  exists k. split; [cbn [dumps Nat.add trickles quiet_cluster] in D; lia | exact B].
Defined.

(** ** The names of the files *)

Lemma occurs_uint c d :
  occurs c (NilEmpty.string_of_uint d) ->
  In c ["0"; "1"; "2"; "3"; "4"; "5"; "6"; "7"; "8"; "9"]%char.
Proof.
  induction d; cbn [NilEmpty.string_of_uint occurs]; intros H;
    try contradiction; destruct H as [<- | H]; auto; cbn; auto 12.
Qed.

Lemma occurs_str c n :
  occurs c (str n) ->
  In c ["-"; "0"; "1"; "2"; "3"; "4"; "5"; "6"; "7"; "8"; "9"]%char.
Proof.
  assert (forall d, occurs c (NilZero.string_of_uint d) ->
                    In c ["0"; "1"; "2"; "3"; "4"; "5"; "6"; "7"; "8"; "9"]%char) as U.
  { intros d. destruct d; try apply (occurs_uint c).
    cbn. intros [<- | []]. auto. }
  unfold str, NilZero.string_of_int.
  destruct (Z.to_int n) as [d | d].
  - intros H. right. apply (U d H).
  - cbn [occurs]. intros [<- | H]; [left; reflexivity | right; apply (U d H)].
Qed.

(** Two strings that agree up to the first [c] of each agree before it and
    after it. *)
Lemma append_split c : forall a a' r r',
  ~ occurs c a -> ~ occurs c a' ->
  (a ++ String c r)%string = (a' ++ String c r')%string -> a = a' /\ r = r'.
Proof.
  induction a as [| x a IH]; intros [| x' a'] r r' N N' E; cbn in E.
  - inversion E; auto.
  - inversion E; subst. exfalso. apply N'. left; reflexivity.
  - inversion E; subst. exfalso. apply N. left; reflexivity.
  - inversion E; subst.
    destruct (IH a' r r') as [-> ->]; auto.
    + intros O. apply N. right; exact O.
    + intros O. apply N'. right; exact O.
Qed.

Lemma str_inj a b : str a = str b -> a = b.
Proof.
  unfold str. intros E. apply DecimalZ.to_int_inj.
  assert (forall n, NilZero.int_of_string (NilZero.string_of_int (Z.to_int n)) =
                    Some (Z.to_int n)) as R.
  { intros n. apply NilZero.isi; destruct n; cbn; try discriminate;
      intros [= E']; apply (DecimalPos.Unsigned.to_uint_nonnil _ E'). }
  pose proof (R a) as Ra. rewrite E, R in Ra. congruence.
Qed.

(** X10.  Two names made by ["{0}_{1}MB.bin".format(i, size / MB)] are the
    same exactly when [i] and the number of megabytes are: whatever the
    bounds of the two loops, no file of the script overwrites another. *)
Theorem filename_of_inj (i size i' size' : Z) :
  filename_of i size = filename_of i' size' <-> i = i' /\ size / MB = size' / MB.
Proof.
  split.
  - unfold filename_of. intros E.
    change (str i ++ "_" ++ str (size / MB) ++ "MB.bin")%string
      with (str i ++ String "_" (str (size / MB) ++ String "M" "B.bin"))%string in E.
    change (str i' ++ "_" ++ str (size' / MB) ++ "MB.bin")%string
      with (str i' ++ String "_" (str (size' / MB) ++ String "M" "B.bin"))%string in E.
    apply append_split in E as [A E].
    + apply append_split in E as [B _].
      * split; apply str_inj; assumption.
      * intros O. apply occurs_str in O. cbn in O.
        repeat destruct O as [O | O]; try discriminate O; contradiction.
      * intros O. apply occurs_str in O. cbn in O.
        repeat destruct O as [O | O]; try discriminate O; contradiction.
    + intros O. apply occurs_str in O. cbn in O.
      repeat destruct O as [O | O]; try discriminate O; contradiction.
    + intros O. apply occurs_str in O. cbn in O.
      repeat destruct O as [O | O]; try discriminate O; contradiction.
  - intros [-> E]. unfold filename_of. rewrite E. reflexivity.
Qed.

(** X11.  From one pass to a later one the high-water marks never
    decrease, and they are never negative, whatever the MDS reports. *)
Theorem high_water_never_decreases
    (throttle_type mds_max_purge_ops mds_max_purge_files : Z) (w : cluster)
    (m n : nat) (l1 l2 : locals) (w1 w2 : cluster) :
  (m <= n)%nat ->
  after m throttle_type mds_max_purge_ops mds_max_purge_files initial_locals w =
    Some (l1, w1) ->
  after n throttle_type mds_max_purge_ops mds_max_purge_files initial_locals w =
    Some (l2, w2) ->
  0 <= files_high_water l1 <= files_high_water l2 /\
  0 <= ops_high_water l1 <= ops_high_water l2.
Proof.
  intros L A B.
  replace n with (m + (n - m))%nat in B by lia.
  rewrite after_add, A in B.
  apply after_inv in A as (-> & _). apply after_inv in B as (-> & _).
  cbn [locals_after files_high_water ops_high_water initial_locals].
  pose proof (maximum_ge_start (map num_strays_purging (samples w m)) 0).
  pose proof (maximum_ge_start (map num_purge_ops (samples w m)) 0).
  pose proof (maximum_ge_start (map num_strays_purging (samples w1 (n - m)))
                (maximum 0 (map num_strays_purging (samples w m)))).
  pose proof (maximum_ge_start (map num_purge_ops (samples w1 (n - m)))
                (maximum 0 (map num_purge_ops (samples w m)))).
  lia.
Qed.

Lemma high_water_never_decreases_witness :
  0 <= 8 <= 8 /\ 0 <= 12 <= 12.
Proof.
  eassert (after 1 FILES_THROTTLE 16 10 initial_locals (drains_in 3) = Some (_, _)) as A.
  { vm_compute. reflexivity. }
  eassert (after 2 FILES_THROTTLE 16 10 initial_locals (drains_in 3) = Some (_, _)) as B.
  { vm_compute. reflexivity. }
  exact (high_water_never_decreases _ _ _ _ 1 2 _ _ _ _ (le_S 1 1 (le_n 1)) A B).
Defined.

(** ** What the loop reads *)

Lemma body_reads_three_counters throttle_type ops files l w w' :
  dumps w = dumps w' -> slept w = slept w' ->
  strays_purged (perf_dump w (dumps w)) = strays_purged (perf_dump w' (dumps w)) ->
  num_strays_purging (perf_dump w (dumps w)) =
    num_strays_purging (perf_dump w' (dumps w)) ->
  num_purge_ops (perf_dump w (dumps w)) = num_purge_ops (perf_dump w' (dumps w)) ->
  match loop_body throttle_type ops files l w, loop_body throttle_type ops files l w' with
  | (Next l1, w1), (Next l2, w2) =>
      l1 = l2 /\ dumps w1 = dumps w2 /\ slept w1 = slept w2 /\
      perf_dump w1 = perf_dump w /\ perf_dump w2 = perf_dump w'
  | (Break l1, w1), (Break l2, w2) =>
      l1 = l2 /\ dumps w1 = dumps w2 /\ slept w1 = slept w2
  | (Raise e1, w1), (Raise e2, w2) =>
      failure_of e1 = failure_of e2 /\ dumps w1 = dumps w2 /\ slept w1 = slept w2
  | _, _ => False
  end.
Proof.
  intros D S P F O. unfold loop_body, check_threshold. cbn [mds_asok_perf_dump].
  rewrite <- D, <- P, <- F, <- O.
  repeat match goal with
         | |- context [if ?c then _ else _] => destruct c
         end;
    cbn [sleep dumps slept perf_dump]; repeat split; congruence.
Qed.

(** X12.  The loop reads three counters of a snapshot: [strays_purged],
    [num_strays_purging] and [num_purge_ops].  Two clusters whose snapshots
    agree on these end the loop in the same pass, with the same locals or the
    same class of failure, whatever [num_strays], [num_strays_delayed] and
    [strays_created] are. *)
Theorem loop_reads_three_counters (fuel : nat)
    (throttle_type mds_max_purge_ops mds_max_purge_files : Z)
    (l : locals) (w w' : cluster) :
  dumps w = dumps w' -> slept w = slept w' ->
  (forall k,
     strays_purged (perf_dump w k) = strays_purged (perf_dump w' k) /\
     num_strays_purging (perf_dump w k) = num_strays_purging (perf_dump w' k) /\
     num_purge_ops (perf_dump w k) = num_purge_ops (perf_dump w' k)) ->
  option_map (fun rw => (outcome_class (fst rw), dumps (snd rw), slept (snd rw)))
    (purge_loop fuel throttle_type mds_max_purge_ops mds_max_purge_files l w) =
  option_map (fun rw => (outcome_class (fst rw), dumps (snd rw), slept (snd rw)))
    (purge_loop fuel throttle_type mds_max_purge_ops mds_max_purge_files l w').
Proof.
  revert l w w'. induction fuel as [| fuel IH]; intros l w w' D S A; [reflexivity |].
  cbn [purge_loop].
  pose proof (body_reads_three_counters throttle_type mds_max_purge_ops
                mds_max_purge_files l w w' D S) as B.
  destruct (A (dumps w)) as (P & F & O). specialize (B P F O).
  destruct (loop_body throttle_type mds_max_purge_ops mds_max_purge_files l w)
    as [[l1 | l1 | e1] w1];
    destruct (loop_body throttle_type mds_max_purge_ops mds_max_purge_files l w')
      as [[l2 | l2 | e2] w2]; try contradiction.
  - destruct B as (-> & D' & S' & E1 & E2).
    apply IH; [exact D' | exact S' |]. rewrite E1, E2. exact A.
  - destruct B as (-> & D' & S'). cbn [option_map fst snd]. rewrite D', S'. reflexivity.
  - destruct B as (E & D' & S'). cbn [option_map fst snd outcome_class].
    rewrite E, D', S'. reflexivity.
Qed.

Lemma loop_reads_three_counters_witness :
  option_map (fun rw => (outcome_class (fst rw), dumps (snd rw), slept (snd rw)))
    (purge_loop enough_fuel OPS_THROTTLE 16 10 initial_locals
       (quiet_cluster (switch_at 2 waiting all_purged))) =
  option_map (fun rw => (outcome_class (fst rw), dumps (snd rw), slept (snd rw)))
    (purge_loop enough_fuel OPS_THROTTLE 16 10 initial_locals
       (quiet_cluster (switch_at 2 waiting leftover))).
Proof.
  apply loop_reads_three_counters; [reflexivity | reflexivity |].
  intros k. cbn [quiet_cluster perf_dump]. unfold switch_at.
  destruct (k <? 2)%nat; repeat split; reflexivity.
Defined.

(** X13.  A limit under test below 2 switches the heuristic off: half of
    it is at most 0, which no high-water mark is below, so the test never
    raises the heuristic violation. *)
Theorem heuristic_off_below_two (fuel : nat) (throttle_type : Z) (w : cluster)
    (r : result unit) (w' : cluster) :
  (throttle_type = OPS_THROTTLE /\ max_purge_ops w < 2) \/
  (throttle_type = FILES_THROTTLE /\ max_purge_files w < 2) ->
  _test_throttling fuel throttle_type w = Some (r, w') ->
  forall e, r = Raised e -> failure_of e <> HeuristicViolation.
Proof.
  intros K H e -> F.
  assert (forall limit hw, limit < 2 -> 0 <= hw -> (hw <? limit / 2) = false) as Half.
  { intros limit hw A B. apply Z.ltb_ge.
    pose proof (Z.div_mod limit 2 ltac:(lia)).
    pose proof (Z.mod_pos_bound limit 2 ltac:(lia)). lia. }
  assert (exists w0, lift_other_throttle throttle_type w = Ok w0 /\
                     max_purge_ops w0 = (if throttle_type =? OPS_THROTTLE
                                         then max_purge_ops w else 100000000) /\
                     max_purge_files w0 = (if throttle_type =? OPS_THROTTLE
                                           then 100000000 else max_purge_files w))
    as (w0 & L & Eo & Ef).
  { destruct K as [[-> _] | [-> _]]; eexists; split; try reflexivity; split; reflexivity. }
  pose proof (test_throttling_loop_raises fuel throttle_type w w0 L) as R.
  destruct (purge_loop fuel throttle_type (max_purge_ops w0) (max_purge_files w0)
              initial_locals (make_strays w0)) as [[[l | e'] w2] |] eqn:M.
  - clear R. rewrite (test_throttling_after_loop _ _ _ _ _ _ L M) in H.
    apply loop_completed in M as (n & -> & ->).
    rewrite observe_maxima in H. unfold check_high_water in H.
    cbn [files_high_water ops_high_water] in H. rewrite Eo, Ef in H.
    destruct K as [[-> B] | [-> B]];
      cbn [Z.eqb OPS_THROTTLE FILES_THROTTLE Pos.eqb] in H;
      rewrite (Half _ _ B (maximum_ge_start _ 0)) in H;
      (destruct (sanity_check _) as [a |] eqn:C; inversion H; subst;
       apply sanity_check_some in C as (x & y & -> & _); discriminate F).
  - rewrite R in H. inversion H; subst e'.
    apply loop_raises in M as [T | T]; [congruence | congruence |].
    destruct K as [[-> _] | [-> _]]; auto.
  - congruence.
Qed.

Lemma heuristic_off_below_two_witness :
  exists w',
    _test_throttling enough_fuel FILES_THROTTLE one_file_limit =
      Some (Raised (AssertionError 1 0), w') /\
    dumps w' = 4%nat /\
    failure_of (AssertionError 1 0) <> HeuristicViolation.
Proof.
  eassert (_test_throttling enough_fuel FILES_THROTTLE one_file_limit
           = Some (Raised (AssertionError 1 0), _)) as H.
  { vm_compute. reflexivity. }
  eexists. split; [exact H |]. split; [reflexivity |].
  refine (heuristic_off_below_two _ _ _ _ _ (or_intror (conj eq_refl _)) H _ eq_refl).
  reflexivity.
Defined.

(** ** The workload and the count the test waits for *)


